(** * Verification of the shopping calculator (app.py)

  A shallow embedding of the logic of [app.py]: the price parser, the
  settings store, the CSV history ledger and the two aggregations of the
  graph page, together with the properties the specification states about
  them.

  Conventions.
  - A Python [str] is a [string]; a character is a code point below 256.
  - A Python [float] is an IEEE binary64 value, [spec_float] with
    precision 53 and maximal exponent 1024.
  - A Python exception is a [Raise e] result; [try/except Exception] is a
    match on the result.
  - The file system is an explicit state: the data directory and the
    contents of the two files under it. *)

From Stdlib Require Import ZArith String Ascii List Bool Lia DecimalString.
From Stdlib Require Import Floats.SpecFloat.
From stdpp Require Import gmap strings list sorting.

Local Open Scope string_scope.

(** ** Results and exceptions *)

Inductive exn : Type :=
| ValueError
| TypeError
| CsvError
| OverflowError
| AttributeError.

Inductive res (A : Type) : Type :=
| Ok (a : A)
| Raise (e : exn).
Arguments Ok {A} a.
Arguments Raise {A} e.

(** ** Python strings *)

Module PyStr.

Definition code (c : ascii) : N := N_of_ascii c.

Definition in_range (lo hi : N) (c : ascii) : bool :=
  ((lo <=? code c) && (code c <=? hi))%N.

(** Characters [str.strip()] removes: the code points below 256 for which
    [str.isspace] holds. *)
Definition isspace (c : ascii) : bool :=
  in_range 9 13 c || in_range 28 32 c
  || (code c =? 133)%N || (code c =? 160)%N.

Fixpoint lstrip_by (sp : ascii -> bool) (s : string) : string :=
  match s with
  | EmptyString => EmptyString
  | String c s' => if sp c then lstrip_by sp s' else s
  end.

Fixpoint rstrip_by (sp : ascii -> bool) (s : string) : string :=
  match s with
  | EmptyString => EmptyString
  | String c s' =>
      match rstrip_by sp s' with
      | EmptyString => if sp c then EmptyString else String c EmptyString
      | r => String c r
      end
  end.

Definition strip_by (sp : ascii -> bool) (s : string) : string :=
  rstrip_by sp (lstrip_by sp s).

(** [s.strip()] *)
Definition strip : string -> string := strip_by isspace.

(** [s.replace(old, new)] for a one-character [old]. *)
Fixpoint replace_char (old : ascii) (new : string) (s : string) : string :=
  match s with
  | EmptyString => EmptyString
  | String c s' =>
      if Ascii.eqb c old then new +:+ replace_char old new s'
      else String c (replace_char old new s')
  end.

(** [x in s] for a one-character [x]. *)
Fixpoint mem_char (x : ascii) (s : string) : bool :=
  match s with
  | EmptyString => false
  | String c s' => Ascii.eqb c x || mem_char x s'
  end.

Definition len (s : string) : Z := Z.of_nat (String.length s).

(** [s[lo:hi]] for [0 <= lo <= hi]. *)
Definition slice (lo hi : nat) (s : string) : string :=
  String.substring lo (hi - lo) s.

Definition lower_char (c : ascii) : ascii :=
  if in_range 65 90 c then ascii_of_N (code c + 32) else c.

Fixpoint lower (s : string) : string :=
  match s with
  | EmptyString => EmptyString
  | String c s' => String (lower_char c) (lower s')
  end.

End PyStr.

(** ** Python floats: [float(str)] *)

Module PyFloat.

Definition prec : Z := 53.
Definition emax : Z := 1024.

Definition zero : spec_float := S754_zero false.
Definition add : spec_float -> spec_float -> spec_float := SFadd prec emax.
Definition ltb : spec_float -> spec_float -> bool := SFltb.

(** The binary64 nearest to [m * 10^e] (ties to even), with sign [neg]:
    what C's [strtod] returns for a decimal literal. *)
Definition of_decimal (neg : bool) (m : N) (e : Z) : spec_float :=
  match m with
  | N0 => S754_zero neg
  | Npos p =>
      match e with
      | Zneg k =>
          let '(q, e', l) :=
            SFdiv_core_binary prec emax (Zpos p) 0 (Z.pow 10 (Zpos k)) 0 in
          binary_round_aux prec emax neg q e' l
      | _ => binary_round prec emax neg (p * Z.to_pos (Z.pow 10 e)) 0
      end
  end.

Definition is_digit (c : ascii) : bool := PyStr.in_range 48 57 c.
Definition digit_val (c : ascii) : N := (PyStr.code c - 48)%N.

(** The longest prefix of decimal digits, and the rest. *)
Fixpoint span_digits (s : string) : string * string :=
  match s with
  | String c s' =>
      if is_digit c
      then let '(d, r) := span_digits s' in (String c d, r)
      else (EmptyString, s)
  | EmptyString => (EmptyString, EmptyString)
  end.

Fixpoint digits_value (acc : N) (ds : string) : N :=
  match ds with
  | EmptyString => acc
  | String c ds' => digits_value (10 * acc + digit_val c)%N ds'
  end.

(** An optional sign: [true] for a minus. *)
Definition take_sign (s : string) : bool * string :=
  match s with
  | String "-" s' => (true, s')
  | String "+" s' => (false, s')
  | _ => (false, s)
  end.

(** [number [exponent]] of the [float()] grammar, read as a whole:
    the digits as one integer and the power of ten that scales it. *)
Definition parse_decimal (s : string) : option (N * Z) :=
  let '(ip, r1) := span_digits s in
  let '(fp, r2) :=
    match r1 with
    | String "." r => span_digits r
    | _ => (EmptyString, r1)
    end in
  if (String.length ip + String.length fp =? 0)%nat then None
  else
    let m := digits_value 0 (ip +:+ fp) in
    let scale := (- Z.of_nat (String.length fp))%Z in
    match r2 with
    | EmptyString => Some (m, scale)
    | String c r3 =>
        if Ascii.eqb c "e" || Ascii.eqb c "E" then
          let '(eneg, r4) := take_sign r3 in
          let '(ed, r5) := span_digits r4 in
          match ed, r5 with
          | String _ _, EmptyString =>
              let x := Z.of_N (digits_value 0 ed) in
              Some (m, ((if eneg then - x else x) + scale)%Z)
          | _, _ => None
          end
        else None
    end.

(** [[sign] (floatnumber | infinity | nan)], no surrounding blanks. *)
Definition parse_float (s : string) : option spec_float :=
  let '(neg, body) := take_sign s in
  let low := PyStr.lower body in
  if String.eqb low "inf" || String.eqb low "infinity"
  then Some (S754_infinity neg)
  else if String.eqb low "nan" then Some S754_nan
  else
    match parse_decimal body with
    | Some (m, e) => Some (of_decimal neg m e)
    | None => None
    end.

(** Blanks [float()] skips at both ends. *)
Definition float_space (c : ascii) : bool :=
  PyStr.in_range 9 13 c || (PyStr.code c =? 32)%N
  || (PyStr.code c =? 133)%N || (PyStr.code c =? 160)%N.

(** An underscore is allowed only between two digits. *)
Fixpoint underscores_ok (prev : option ascii) (s : string) : bool :=
  let prev_digit := match prev with Some p => is_digit p | None => false end in
  let prev_us := match prev with Some "_"%char => true | _ => false end in
  match s with
  | EmptyString => negb prev_us
  | String c s' =>
      if Ascii.eqb c "_" then prev_digit && underscores_ok (Some c) s'
      else (negb prev_us || is_digit c) && underscores_ok (Some c) s'
  end.

(** [float(s)] for a string [s]; a [ValueError] when [s] is no numeral. *)
Definition of_string (s : string) : res spec_float :=
  let t := PyStr.strip_by float_space s in
  if underscores_ok None t then
    match parse_float (PyStr.replace_char "_" "" t) with
    | Some f => Ok f
    | None => Raise ValueError
    end
  else Raise ValueError.

End PyFloat.

(** ** The price parser *)

(** [parse_price(text)]: the body of the [try] is [of_string] on the text
  with its commas removed; any exception becomes [None]. *)
Definition parse_price (text : option string) : res (option spec_float) :=
match text with
| None => Ok None
| Some text =>
    let s := PyStr.strip text in
    if String.eqb s "" then Ok None
    else
      match PyFloat.of_string (PyStr.replace_char "," "" s) with
      | Ok value =>
          if PyFloat.ltb value PyFloat.zero then Ok None else Ok (Some value)
      | Raise _ => Ok None
      end
end.


(** ** Python values and dictionaries *)

(** The values a ledger row can hold: what the page passes to the writer
    (text, integers, floats, [None]) and what [csv.DictReader] hands back
    (text, [None] for a missing cell, a list for the surplus cells). *)
Inductive pyval : Type :=
| PNone
| PStr (s : string)
| PInt (z : Z)
| PFloat (f : spec_float)
| PList (l : list string).

(** A [dict] whose keys are strings or [None]. *)
Abbreviation pydict := (gmap (option string) pyval).

(** JSON documents as [json.load] returns them. *)
#[warnings="-register-all"]
Inductive json : Type :=
| JNull
| JBool (b : bool)
| JInt (z : Z)
| JFloat (f : spec_float)
| JStr (s : string)
| JList (l : list json)
| JDict (d : gmap string json).

(** The library functions the program calls and whose text formats play no
    part below: [repr] of a float and of a list, and the JSON reader and writer
    ([json_load] raises on a malformed document). *)
Class PyRuntime : Type := {
  float_repr : spec_float -> string;
  list_repr : list string -> string;
  json_load : string -> res json;
  json_dump : json -> string
}.

(** [d.get(k, dflt)] *)
Definition dict_get (d : pydict) (k : string) (dflt : pyval) : pyval :=
  match d !! Some k with
  | Some v => v
  | None => dflt
  end.

(** [k in d] *)
Definition dict_has (d : pydict) (k : string) : bool :=
  match d !! Some k with
  | Some _ => true
  | None => false
  end.

(** [float(z)] for an integer: the nearest binary64, or [OverflowError]. *)
Definition float_of_int (z : Z) : res spec_float :=
  match binary_normalize PyFloat.prec PyFloat.emax z 0 false with
  | S754_infinity _ => Raise OverflowError
  | f => Ok f
  end.

(** [float(v)] *)
Definition py_float (v : pyval) : res spec_float :=
  match v with
  | PStr s => PyFloat.of_string s
  | PInt z => float_of_int z
  | PFloat f => Ok f
  | PNone => Raise TypeError
  | PList _ => Raise TypeError
  end.

(** [bool(v)] *)
Definition truthy (v : pyval) : bool :=
  match v with
  | PNone => false
  | PStr s => negb (String.eqb s "")
  | PInt z => negb (z =? 0)%Z
  | PFloat (S754_zero _) => false
  | PFloat _ => true
  | PList l => match l with [] => false | _ => true end
  end.

(** [xs[start:]] for any integer [start]. *)
Definition slice_from {A : Type} (start : Z) (xs : list A) : list A :=
  let n := Z.of_nat (length xs) in
  let i := if (start <? 0)%Z then Z.max (start + n) 0 else Z.min start n in
  drop (Z.to_nat i) xs.

(** ** The graph page: recent trend *)

(** [float(r.get("total", 0))] under [try/except]: 0.0 on any failure. *)
Definition total_of (r : pydict) : spec_float :=
  match py_float (dict_get r "total" (PInt 0)) with
  | Ok t => t
  | Raise _ => PyFloat.zero
  end.

(** [dt[5:16] if len(dt) >= 16 else dt]; [len] fails on what has no
    length. *)
Definition label_of (dt : pyval) : res pyval :=
  match dt with
  | PStr s =>
      Ok (PStr (if (16 <=? PyStr.len s)%Z then PyStr.slice 5 16 s else s))
  | PList l =>
      Ok (PList (if (16 <=? Z.of_nat (length l))%Z
                 then take (16 - 5) (drop 5 l) else l))
  | _ => Raise TypeError
  end.

(** The three lists the loop over [recent] fills in step. *)
Record trend : Type := Trend {
  x_labels : list pyval;
  totals : list spec_float;
  memos : list pyval
}.

Fixpoint trend_loop (recent : list pydict) (acc : trend) : res trend :=
  match recent with
  | [] => Ok acc
  | r :: rest =>
      match label_of (dict_get r "datetime" (PStr "")) with
      | Raise e => Raise e
      | Ok label =>
          trend_loop rest
            {| x_labels := x_labels acc ++ [label];
               totals := totals acc ++ [total_of r];
               memos := memos acc ++ [dict_get r "memo" (PStr "")] |}
      end
  end.

(** The [else] branch of section 2: the rows plotted and the three lists,
    for the slider value [n] and the non-empty [rows] read. *)
Definition recent_trend (n : Z) (rows : list pydict)
  : res (list pydict * trend) :=
  let recent := slice_from (- n) rows in
  match trend_loop recent (Trend [] [] []) with
  | Ok t => Ok (recent, t)
  | Raise e => Raise e
  end.

(** ** The graph page: totals by memo *)

(** [(r.get("memo", "") or "").strip()], then the bucket name. *)
Definition memo_key (r : pydict) : res string :=
  let v := dict_get r "memo" (PStr "") in
  let v := if truthy v then v else PStr "" in
  match v with
  | PStr s =>
      let memo := PyStr.strip s in
      Ok (if String.eqb memo "" then "(no memo)" else memo)
  | _ => Raise AttributeError
  end.

(** [buckets[memo] = buckets.get(memo, 0.0) + t] on an insertion-ordered
    dictionary: an existing key keeps its place, a new one goes last. *)
Fixpoint bucket_add (memo : string) (t : spec_float)
  (buckets : list (string * spec_float)) : list (string * spec_float) :=
  match buckets with
  | [] => [(memo, PyFloat.add PyFloat.zero t)]
  | (k, v) :: rest =>
      if String.eqb k memo then (k, PyFloat.add v t) :: rest
      else (k, v) :: bucket_add memo t rest
  end.

Fixpoint bucket_loop (rows : list pydict)
  (buckets : list (string * spec_float)) : res (list (string * spec_float)) :=
  match rows with
  | [] => Ok buckets
  | r :: rest =>
      match memo_key r with
      | Raise e => Raise e
      | Ok memo => bucket_loop rest (bucket_add memo (total_of r) buckets)
      end
  end.

(** A stable sort by [lt] on the keys: [x] goes in front of the first
    element that is not smaller than it. *)
Fixpoint insert_by {A : Type} (lt : A -> A -> bool) (x : A) (l : list A)
  : list A :=
  match l with
  | [] => [x]
  | y :: l' => if lt y x then y :: insert_by lt x l' else x :: y :: l'
  end.

Fixpoint sort_by {A : Type} (lt : A -> A -> bool) (l : list A) : list A :=
  match l with
  | [] => []
  | x :: l' => insert_by lt x (sort_by lt l')
  end.

(** [sorted(items, key=lambda x: x[1], reverse=True)]: the list is
    reversed, sorted upwards and reversed again, which keeps equal keys in
    their first order. *)
Definition value_lt (a b : string * spec_float) : bool :=
  PyFloat.ltb (snd a) (snd b).

Definition sorted_desc (items : list (string * spec_float))
  : list (string * spec_float) :=
  rev (sort_by value_lt (rev items)).

(** The [else] branch of section 3: [items], from which the labels and the
    values of the bar chart are read off. *)
Definition memo_totals (rows : list pydict)
  : res (list (string * spec_float)) :=
  match bucket_loop rows [] with
  | Ok buckets => Ok (take 10 (sorted_desc buckets))
  | Raise e => Raise e
  end.


(** ** The state: the data directory, its two files, the dict objects *)

Record world : Type := World {
  data_dir : bool;
  settings_file : option string;
  history_file : option string;
  heap : gmap nat pydict
}.

(** [os.makedirs(DATA_DIR, exist_ok=True)] *)
Definition ensure_data_dir (w : world) : world :=
  World true (settings_file w) (history_file w) (heap w).

Definition set_settings (f : option string) (w : world) : world :=
  World (data_dir w) f (history_file w) (heap w).

Definition set_history (f : option string) (w : world) : world :=
  World (data_dir w) (settings_file w) f (heap w).

(** Writing [text] to the history file opened in mode ["a"]: the file is
    created when absent and the text goes to its end. *)
Definition write_history (text : string) (w : world) : world :=
  set_history
    (Some match history_file w with
          | Some old => old +:+ text
          | None => text
          end) w.

(** The dict object a reference denotes, and its update in place. *)
Definition deref (w : world) (l : nat) : pydict :=
  match heap w !! l with
  | Some d => d
  | None => ∅
  end.

Definition store (l : nat) (d : pydict) (w : world) : world :=
  World (data_dir w) (settings_file w) (history_file w) (<[l := d]> (heap w)).

(** ** The settings store *)

(** The literal [0.10]. *)
Definition tax_rate_default : spec_float :=
  Eval vm_compute in PyFloat.of_decimal false 10 (-2).

Definition default_settings : gmap string json :=
  {[ "tax_rate" := JFloat tax_rate_default ]}.

(** [k in data] for the values [json.load] can return. *)
Definition json_contains (k : string) (data : json) : res bool :=
  match data with
  | JDict d => Ok (match d !! k with Some _ => true | None => false end)
  | JList l =>
      Ok (existsb
            (fun x => match x with JStr s => String.eqb s k | _ => false end) l)
  | JStr s => Ok (match String.index 0 k s with Some _ => true | None => false end)
  | _ => Raise TypeError
  end.

(** [data[k] = v] *)
Definition json_setitem (k : string) (v : json) (data : json) : res json :=
  match data with
  | JDict d => Ok (JDict (<[k := v]> d))
  | _ => Raise TypeError
  end.

(** [f == z] for a float and an integer: Python compares the exact
    values. *)
Definition float_eq_int (f : spec_float) (z : Z) : bool :=
  match f with
  | S754_zero _ => (z =? 0)%Z
  | S754_finite s m e =>
      let v := if s then Z.neg m else Z.pos m in
      if (0 <=? e)%Z then (z =? v * 2 ^ e)%Z else (z * 2 ^ (- e) =? v)%Z
  | _ => false
  end.

Definition int_of_bool (b : bool) : Z := if b then 1%Z else 0%Z.

(** [a == b] for two JSON values that share no object, such as a loaded
    document and the one that was saved: numbers compare by value across
    [bool], [int] and [float], and a NaN equals nothing; lists compare
    element by element; mappings are equal when they have the same keys
    with equal values. *)
Fixpoint py_eq (a b : json) {struct a} : bool :=
  match a, b with
  | JNull, JNull => true
  | JBool x, JBool y => Bool.eqb x y
  | JBool x, JInt z => (int_of_bool x =? z)%Z
  | JBool x, JFloat f => float_eq_int f (int_of_bool x)
  | JInt z, JBool y => (z =? int_of_bool y)%Z
  | JInt x, JInt y => (x =? y)%Z
  | JInt z, JFloat f => float_eq_int f z
  | JFloat f, JBool y => float_eq_int f (int_of_bool y)
  | JFloat f, JInt z => float_eq_int f z
  | JFloat f, JFloat g => SFeqb f g
  | JStr s, JStr t => String.eqb s t
  | JList l, JList m =>
      (fix all2 (l : list json) (m : list json) : bool :=
         match l, m with
         | [], [] => true
         | x :: l', y :: m' => py_eq x y && all2 l' m'
         | _, _ => false
         end) l m
  | JDict d, JDict e =>
      (size d =? size e)%nat
      && map_fold (fun k v acc =>
                     acc && match e !! k with
                            | Some v' => py_eq v v'
                            | None => false
                            end) true d
  | _, _ => false
  end.

(** The body of the [try] of [load_settings], on the text of the file. *)
Definition load_settings_try `{PyRuntime} (text : string) : res json :=
  match json_load text with
  | Raise e => Raise e
  | Ok data =>
      match json_contains "tax_rate" data with
      | Raise e => Raise e
      | Ok true => Ok data
      | Ok false => json_setitem "tax_rate" (JFloat tax_rate_default) data
      end
  end.

Definition load_settings `{PyRuntime} (w : world) : json * world :=
  let w := ensure_data_dir w in
  let default := JDict default_settings in
  match settings_file w with
  | None => (default, w)
  | Some text =>
      match load_settings_try text with
      | Ok data => (data, w)
      | Raise _ => (default, w)
      end
  end.

Definition save_settings `{PyRuntime} (settings : gmap string json)
  (w : world) : world :=
  let w := ensure_data_dir w in
  set_settings (Some (json_dump (JDict settings))) w.

(** ** The CSV writer (excel dialect) *)

Definition comma : ascii := ",".
Definition dquote : ascii := "034".
Definition cr : ascii := "013".
Definition lf : ascii := "010".

(** The line terminator the writer uses. *)
Definition crlf : string := String cr (String lf EmptyString).

(** Characters that force a field into quotes. *)
Definition special (c : ascii) : bool :=
  Ascii.eqb c comma || Ascii.eqb c dquote || Ascii.eqb c cr || Ascii.eqb c lf.

Fixpoint has_special (s : string) : bool :=
  match s with
  | EmptyString => false
  | String c s' => special c || has_special s'
  end.

(** Each quote of the field is doubled. *)
Fixpoint double_quotes (s : string) : string :=
  match s with
  | EmptyString => EmptyString
  | String c s' =>
      if Ascii.eqb c dquote then String dquote (String dquote (double_quotes s'))
      else String c (double_quotes s')
  end.

Definition csv_field (s : string) : string :=
  if has_special s
  then String dquote (double_quotes s +:+ String dquote EmptyString)
  else s.

Fixpoint join_fields (fs : list string) : string :=
  match fs with
  | [] => EmptyString
  | [f] => csv_field f
  | f :: rest => csv_field f +:+ String comma (join_fields rest)
  end.

(** [writer.writerow(fs)]: a record that would come out empty, the single
    empty field, is written as a quoted empty field. *)
Definition csv_line (fs : list string) : string :=
  match fs with
  | [EmptyString] => String dquote (String dquote crlf)
  | _ => join_fields fs +:+ crlf
  end.

Definition fieldnames : list string :=
  ["datetime"; "count"; "subtotal"; "tax_rate"; "total"; "memo"].

(** [sys.get_int_max_str_digits()]: CPython, since 3.11, converts no
    integer of more decimal digits than this to text. *)
Definition int_max_str_digits : N := 4300.

(** The number of decimal digits of an integer, its sign left out. *)
Definition int_digits (z : Z) : N :=
  N.of_nat (String.length (NilZero.string_of_uint (N.to_uint (Z.abs_N z)))).

(** [str(z)] for an integer: a [ValueError] beyond the digit limit. *)
Definition int_str (z : Z) : res string :=
  if (int_max_str_digits <? int_digits z)%N then Raise ValueError
  else Ok (NilZero.string_of_int (Z.to_int z)).

(** What the writer puts in a cell: [None] is empty, text is itself,
    anything else its [str], which can fail. *)
Definition csv_cell `{PyRuntime} (v : pyval) : res string :=
  match v with
  | PNone => Ok EmptyString
  | PStr s => Ok s
  | PInt z => int_str z
  | PFloat f => Ok (float_repr f)
  | PList l => Ok (list_repr l)
  end.

(** The cells of a record, converted one after the other; the first
    failure ends the record, of which nothing is written then. *)
Fixpoint csv_cells `{PyRuntime} (values : list pyval) : res (list string) :=
  match values with
  | [] => Ok []
  | v :: rest =>
      match csv_cell v with
      | Raise e => Raise e
      | Ok cell =>
          match csv_cells rest with
          | Raise e => Raise e
          | Ok cells => Ok (cell :: cells)
          end
      end
  end.

Definition known_key (names : list string) (k : option string) : bool :=
  match k with
  | Some s => existsb (String.eqb s) names
  | None => false
  end.

(** [DictWriter._dict_to_list]: a key outside the field names is a
    [ValueError]; a missing one is written as the empty string. *)
Definition known_keys (names : list string) (rowdict : pydict) : bool :=
  forallb (fun kv => known_key names (fst kv)) (map_to_list rowdict).

Definition dict_to_list (names : list string) (rowdict : pydict)
  : res (list pyval) :=
  if known_keys names rowdict
  then Ok (map (fun k => dict_get rowdict k (PStr EmptyString)) names)
  else Raise ValueError.

(** ** The CSV reader (excel dialect, not strict) *)

Inductive pstate : Type :=
| START_RECORD
| START_FIELD
| IN_FIELD
| IN_QUOTED_FIELD
| QUOTE_IN_QUOTED_FIELD
| EAT_CRNL.

(** The reader between two characters: its state, the field being read
    and the fields of the record read so far. *)
Record reader : Type := Reader {
  state : pstate;
  field : string;
  fields : list string
}.

(** What the reader is fed: a character of a line, or the end of a line. *)
Inductive event : Type :=
| Ch (c : ascii)
| EOL.

Definition field_limit : N := 131072.

(** [parse_reset] *)
Definition reader_init : reader := Reader START_RECORD EmptyString [].

Definition set_state (st : pstate) (p : reader) : reader :=
  Reader st (field p) (fields p).

Definition parse_save_field (p : reader) : reader :=
  Reader (state p) EmptyString (fields p ++ [field p]).

Definition parse_add_char (c : ascii) (p : reader) : res reader :=
  if (field_limit <=? N.of_nat (String.length (field p)))%N
  then Raise CsvError
  else Ok (Reader (state p) (field p +:+ String c EmptyString) (fields p)).

Definition is_newline (c : ascii) : bool := Ascii.eqb c lf || Ascii.eqb c cr.

(** [START_FIELD], which [START_RECORD] falls through to. *)
Definition start_field (ev : event) (p : reader) : res reader :=
  match ev with
  | EOL => Ok (set_state START_RECORD (parse_save_field p))
  | Ch c =>
      if is_newline c then Ok (set_state EAT_CRNL (parse_save_field p))
      else if Ascii.eqb c dquote then Ok (set_state IN_QUOTED_FIELD p)
      else if Ascii.eqb c comma then Ok (parse_save_field p)
      else
        match parse_add_char c p with
        | Ok p' => Ok (set_state IN_FIELD p')
        | Raise e => Raise e
        end
  end.

(** [parse_process_char] *)
Definition process_char (ev : event) (p : reader) : res reader :=
  match state p with
  | START_RECORD =>
      match ev with
      | EOL => Ok p
      | Ch c =>
          if is_newline c then Ok (set_state EAT_CRNL p)
          else start_field ev (set_state START_FIELD p)
      end
  | START_FIELD => start_field ev p
  | IN_FIELD =>
      match ev with
      | EOL => Ok (set_state START_RECORD (parse_save_field p))
      | Ch c =>
          if is_newline c then Ok (set_state EAT_CRNL (parse_save_field p))
          else if Ascii.eqb c comma
          then Ok (set_state START_FIELD (parse_save_field p))
          else parse_add_char c p
      end
  | IN_QUOTED_FIELD =>
      match ev with
      | EOL => Ok p
      | Ch c =>
          if Ascii.eqb c dquote then Ok (set_state QUOTE_IN_QUOTED_FIELD p)
          else parse_add_char c p
      end
  | QUOTE_IN_QUOTED_FIELD =>
      match ev with
      | EOL => Ok (set_state START_RECORD (parse_save_field p))
      | Ch c =>
          if Ascii.eqb c dquote then
            match parse_add_char c p with
            | Ok p' => Ok (set_state IN_QUOTED_FIELD p')
            | Raise e => Raise e
            end
          else if Ascii.eqb c comma
          then Ok (set_state START_FIELD (parse_save_field p))
          else if is_newline c
          then Ok (set_state EAT_CRNL (parse_save_field p))
          else
            match parse_add_char c p with
            | Ok p' => Ok (set_state IN_FIELD p')
            | Raise e => Raise e
            end
      end
  | EAT_CRNL =>
      match ev with
      | EOL => Ok (set_state START_RECORD p)
      | Ch c => if is_newline c then Ok p else Raise CsvError
      end
  end.

(** The characters of a line, one after the other. *)
Fixpoint feed_string (line : string) (p : reader) : res reader :=
  match line with
  | EmptyString => Ok p
  | String c rest =>
      match process_char (Ch c) p with
      | Ok p' => feed_string rest p'
      | Raise e => Raise e
      end
  end.

(** A whole line, then its end. *)
Definition feed_line (line : string) (p : reader) : res reader :=
  match feed_string line p with
  | Ok p' => process_char EOL p'
  | Raise e => Raise e
  end.

Definition at_start (p : reader) : bool :=
  match state p with START_RECORD => true | _ => false end.

(** What is left when the lines run out in the middle of a record. *)
Definition pending (p : reader) : bool :=
  negb (String.eqb (field p) EmptyString)
  || match state p with IN_QUOTED_FIELD => true | _ => false end.

(** All the records of the lines: a record ends with the line after which
    the reader is back in [START_RECORD]; every record starts from
    [reader_init]. *)
Fixpoint read_records (lines : list string) (p : reader)
  : res (list (list string)) :=
  match lines with
  | [] => Ok (if pending p then [fields (parse_save_field p)] else [])
  | line :: rest =>
      match feed_line line p with
      | Raise e => Raise e
      | Ok p' =>
          if at_start p' then
            match read_records rest reader_init with
            | Ok rows => Ok (fields p' :: rows)
            | Raise e => Raise e
            end
          else read_records rest p'
      end
  end.

(** The lines a text file opened with [newline=""] yields: a line ends
    after ["\n"], after ["\r\n"], or after a ["\r"] that no ["\n"]
    follows, and keeps its ending. [cur] is the line read so far. *)
Fixpoint readlines_from (cur : string) (s : string) : list string :=
  match s with
  | EmptyString =>
      match cur with EmptyString => [] | _ => [cur] end
  | String c rest =>
      let cur' := cur +:+ String c EmptyString in
      if Ascii.eqb c lf then cur' :: readlines_from EmptyString rest
      else if Ascii.eqb c cr then
        match rest with
        | String c2 _ =>
            if Ascii.eqb c2 lf then readlines_from cur' rest
            else cur' :: readlines_from EmptyString rest
        | EmptyString => [cur']
        end
      else readlines_from cur' rest
  end.

Definition readlines (s : string) : list string :=
  readlines_from EmptyString s.

(** [list(csv.reader(f))] on the text of the file. *)
Definition csv_rows (text : string) : res (list (list string)) :=
  read_records (readlines text) reader_init.

(** ** [csv.DictReader] *)

(** [dict(zip(names, row))]: a later cell of the same name wins. *)
Definition zip_dict (names row : list string) : pydict :=
  foldl (fun d kv => <[Some (fst kv) := PStr (snd kv)]> d) ∅ (zip names row).

(** A row under its field names: surplus cells go under the key [None],
    missing cells are [None]. *)
Definition dict_of_row (names row : list string) : pydict :=
  let d := zip_dict names row in
  if (length names <? length row)%nat
  then <[None := PList (drop (length names) row)]> d
  else foldl (fun d k => <[Some k := PNone]> d) d (drop (length row) names).

Definition is_blank (row : list string) : bool :=
  match row with [] => true | _ => false end.

(** The first record gives the field names; blank records after it are
    skipped. *)
Definition dict_reader (rows : list (list string)) : list pydict :=
  match rows with
  | [] => []
  | names :: data =>
      map (dict_of_row names) (filter (fun row => is_blank row = false) data)
  end.

(** ** The history ledger *)

Definition memo_repair (r : pydict) : pydict :=
  if dict_has r "memo" then r else <[Some "memo" := PStr EmptyString]> r.

(** [append_history_row(row)], [row] a reference to the caller's dict. *)
Definition append_history_row `{PyRuntime} (row : nat) (w : world)
  : res unit * world :=
  let w := ensure_data_dir w in
  let file_exists :=
    match history_file w with Some _ => true | None => false end in
  let w := write_history EmptyString w in
  let w := if file_exists then w else write_history (csv_line fieldnames) w in
  let w :=
    if dict_has (deref w row) "memo" then w
    else store row (<[Some "memo" := PStr EmptyString]> (deref w row)) w in
  match dict_to_list fieldnames (deref w row) with
  | Raise e => (Raise e, w)
  | Ok values =>
      match csv_cells values with
      | Raise e => (Raise e, w)
      | Ok cells => (Ok tt, write_history (csv_line cells) w)
      end
  end.

Definition read_history_rows (w : world) : res (list pydict) :=
  match history_file w with
  | None => Ok []
  | Some text =>
      match csv_rows text with
      | Raise e => Raise e
      | Ok rows => Ok (map memo_repair (dict_reader rows))
      end
  end.

Definition delete_history_file (w : world) : bool * world :=
  match history_file w with
  | Some _ => (true, set_history None w)
  | None => (false, w)
  end.

(** ** A runtime for the examples

    It knows the text of three JSON documents, the empty object, an
    object holding the tax rate 0.08 and an object holding the tax rate
    NaN, as [json.dump] writes them with [indent=2], and nothing else. *)

Definition quoted (s : string) : string :=
  String dquote (s +:+ String dquote EmptyString).

Definition sample_text : string :=
  "{" +:+ String lf ("  " +:+ quoted "tax_rate" +:+ ": 0.08" +:+ String lf "}").

Definition nan_text : string :=
  "{" +:+ String lf ("  " +:+ quoted "tax_rate" +:+ ": NaN" +:+ String lf "}").

Definition sample_tax_rate : spec_float :=
  Eval vm_compute in PyFloat.of_decimal false 8 (-2).

Definition sample_settings : gmap string json :=
  {[ "tax_rate" := JFloat sample_tax_rate ]}.

Definition nan_settings : gmap string json :=
  {[ "tax_rate" := JFloat S754_nan ]}.

Definition sample_load (text : string) : res json :=
  if String.eqb text "{}" then Ok (JDict ∅)
  else if String.eqb text sample_text then Ok (JDict sample_settings)
  else if String.eqb text nan_text then Ok (JDict nan_settings)
  else Raise ValueError.

Definition sample_dump (doc : json) : string :=
  match doc with
  | JDict d =>
      match d !! "tax_rate" with
      | Some (JFloat S754_nan) => nan_text
      | Some _ => sample_text
      | None => "{}"
      end
  | _ => "null"
  end.

Definition sample_runtime : PyRuntime :=
  {| float_repr := fun _ => "0.08";
     list_repr := fun _ => "[]";
     json_load := sample_load;
     json_dump := sample_dump |}.

(** ** The reader in one pass

    The same reading as [csv_rows], character by character over the whole
    text: the end of a line is fed after each line ending, and after the
    last character when the text stops inside a line. [partial] tells
    whether the line being read has characters yet. *)

Definition res_map {A B : Type} (f : A -> B) (r : res A) : res B :=
  match r with
  | Ok a => Ok (f a)
  | Raise e => Raise e
  end.

Definition ends_line (c : ascii) (rest : string) : bool :=
  Ascii.eqb c lf
  || (Ascii.eqb c cr
      && negb match rest with
              | String c2 _ => Ascii.eqb c2 lf
              | EmptyString => false
              end).

Definition last_record (p : reader) : list (list string) :=
  if pending p then [fields (parse_save_field p)] else [].

Fixpoint scan (s : string) (partial : bool) (p : reader)
  : res (list (list string)) :=
  match s with
  | EmptyString =>
      if partial then
        match process_char EOL p with
        | Raise e => Raise e
        | Ok p' => Ok (if at_start p' then [fields p'] else last_record p')
        end
      else Ok (last_record p)
  | String c rest =>
      match process_char (Ch c) p with
      | Raise e => Raise e
      | Ok p1 =>
          if ends_line c rest then
            match process_char EOL p1 with
            | Raise e => Raise e
            | Ok p2 =>
                if at_start p2
                then res_map (cons (fields p2)) (scan rest false reader_init)
                else scan rest false p2
            end
          else scan rest true p1
      end
  end.

(** ** Ledgers the writer made *)

(** The text of a table: its rows written one after the other. *)
Fixpoint csv_text (table : list (list string)) : string :=
  match table with
  | [] => EmptyString
  | row :: rest => csv_line row +:+ csv_text rest
  end.

(** A field the reader takes: no longer than its field limit. *)
Definition fits (s : string) : bool :=
  (N.of_nat (String.length s) <=? field_limit)%N.

(** The cells [append_history_row] writes for a row, when the writer can
    convert them all. *)
Definition cells_of `{PyRuntime} (r : pydict) : res (list string) :=
  csv_cells (map (fun k => dict_get r k (PStr EmptyString)) fieldnames).

(** Cells under the field names, each as text. *)
Definition text_row (cells : list string) : pydict :=
  list_to_map (zip (map Some fieldnames) (map PStr cells)).

(** The row as the ledger holds it: under each field name the text of
    the cell, the empty text for a missing cell. *)
Definition row_as_text `{PyRuntime} (r : pydict) : pydict :=
  match cells_of r with
  | Ok cells => text_row cells
  | Raise _ => ∅
  end.

(** ** The specification's words

    Definitions that follow the wording of the specification, to state
    what the code above is compared with. *)

Module Spec.

(** The last [n] elements of a list in their order, all of them when the
    list has fewer. *)
Definition last_n {A : Type} (n : nat) (l : list A) : list A :=
  drop (length l - n) l.

(** Characters 5 through 15 inclusive. *)
Definition chars_5_to_15 (s : string) : string :=
  string_of_list_ascii (omap (fun i => String.get i s) (seq 5 11)).

(** The short label of a date: characters 5 through 15 of a text of at
    least 16 characters, a shorter text as it is. *)
Definition label (s : string) : string :=
  if (String.length s <? 16)%nat then s else chars_5_to_15 s.

(** The bucket of a memo: the memo without surrounding blanks, and
    ["(no memo)"] when nothing is left. *)
Definition bucket (memo : string) : string :=
  match PyStr.strip memo with
  | EmptyString => "(no memo)"
  | m => m
  end.

(** The sum of floats, added up from 0.0 in the order of the list. *)
Definition fsum (l : list spec_float) : spec_float :=
  foldl PyFloat.add PyFloat.zero l.

(** Earlier elements are not below later ones. *)
Definition descending (l : list (string * spec_float)) : Prop :=
  forall i j a b, (i < j)%nat -> l !! i = Some a -> l !! j = Some b ->
    SFleb (snd b) (snd a) = true.

End Spec.

(** The text of a cell; [None] and a missing cell read as no text. *)
Definition is_text (v : pyval) : bool :=
  match v with PStr _ => true | _ => false end.

Definition text_of (v : pyval) : string :=
  match v with PStr s => s | _ => EmptyString end.

(** Every value of the row is text. *)
Definition all_text (r : pydict) : bool :=
  forallb (fun kv => is_text (snd kv)) (map_to_list r).

(** The row has every field, the memo possibly excepted. *)
Definition has_fields (r : pydict) : bool :=
  forallb (fun k => dict_has r k || String.eqb k "memo") fieldnames.


(** What [csv.DictReader] puts under a field name: text, or [None]. *)
Definition is_cell (v : pyval) : bool :=
  match v with PStr _ | PNone => true | _ => false end.

(** The bucket a row is counted in. *)
Definition bucket_of (r : pydict) : string :=
  Spec.bucket (text_of (dict_get r "memo" (PStr EmptyString))).

(** [buckets.get(k)] *)
Fixpoint bucket_get (k : string) (buckets : list (string * spec_float))
  : option spec_float :=
  match buckets with
  | [] => None
  | (k', v) :: rest => if String.eqb k' k then Some v else bucket_get k rest
  end.

(** ** The session cart

    [st.session_state.prices], the list the calculation page keeps between
    runs, and the three handlers that change it. *)

(** The "add" handler: the parsed value goes to the end of the list, text
    that does not parse is skipped. *)
Definition cart_add (price_text : string) (prices : list spec_float)
  : res (list spec_float) :=
  match parse_price (Some price_text) with
  | Raise e => Raise e
  | Ok None => Ok prices
  | Ok (Some value) => Ok (prices ++ [value])%list
  end.

(** The "undo" handler: [prices.pop()] on a non-empty list, nothing on an
    empty one. The first component is the price taken off. *)
Definition cart_undo (prices : list spec_float)
  : option spec_float * list spec_float :=
  match rev prices with
  | [] => (None, prices)
  | removed :: before => (Some removed, rev before)
  end.

(** The "clear" handler. *)
Definition cart_clear (prices : list spec_float) : list spec_float := [].

(** What the user does on the calculation page, one action per run. *)
Inductive cart_action : Type :=
| DoAdd (price_text : string)
| DoUndo
| DoClear.

Definition cart_step (a : cart_action) (prices : list spec_float)
  : res (list spec_float) :=
  match a with
  | DoAdd price_text => cart_add price_text prices
  | DoUndo => Ok (snd (cart_undo prices))
  | DoClear => Ok (cart_clear prices)
  end.

Fixpoint cart_run (actions : list cart_action) (prices : list spec_float)
  : res (list spec_float) :=
  match actions with
  | [] => Ok prices
  | a :: rest =>
      match cart_step a prices with
      | Ok prices' => cart_run rest prices'
      | Raise e => Raise e
      end
  end.

(** ** The tax rate at start-up and on the settings page *)

(** [data.get(k, dflt)]: only a mapping has [get]. *)
Definition json_get (k : string) (dflt : json) (data : json) : res json :=
  match data with
  | JDict d => Ok (match d !! k with Some v => v | None => dflt end)
  | _ => Raise AttributeError
  end.

(** [float(v)] for a JSON value. *)
Definition json_float (v : json) : res spec_float :=
  match v with
  | JFloat f => Ok f
  | JInt z => float_of_int z
  | JBool b => Ok (PyFloat.of_decimal false (if b then 1 else 0) 0)
  | JStr s => PyFloat.of_string s
  | JNull => Raise TypeError
  | JList _ => Raise TypeError
  | JDict _ => Raise TypeError
  end.

(** The two module-level lines
    [settings = load_settings()] and
    [tax_rate = float(settings.get("tax_rate", 0.10))]. *)
Definition startup_tax_rate `{PyRuntime} (w : world)
  : res spec_float * world :=
  let '(settings, w') := load_settings w in
  match json_get "tax_rate" (JFloat tax_rate_default) settings with
  | Raise e => (Raise e, w')
  | Ok v => (json_float v, w')
  end.

(** The literal [100.0]. *)
Definition hundred : spec_float :=
  Eval vm_compute in PyFloat.of_decimal false 100 0.

(** The "save" button of the settings page:
    [settings["tax_rate"] = float(new_tax_percent / 100.0)], then
    [save_settings(settings)]. *)
Definition save_tax_rate `{PyRuntime} (new_tax_percent : spec_float)
  (settings : json) (w : world) : res unit * world :=
  match settings with
  | JDict d =>
      (Ok tt,
       save_settings
         (<["tax_rate" :=
              JFloat (SFdiv PyFloat.prec PyFloat.emax new_tax_percent hundred)]> d)
         w)
  | _ => (Raise TypeError, w)
  end.

(** ** Several appends in a row *)

Fixpoint append_all `{PyRuntime} (rows : list nat) (w : world)
  : res unit * world :=
  match rows with
  | [] => (Ok tt, w)
  | row :: rest =>
      match append_history_row row w with
      | (Ok _, w') => append_all rest w'
      | (Raise e, w') => (Raise e, w')
      end
  end.

(** The header of a ledger from before the memo column. *)
Definition legacy_fieldnames : list string :=
  ["datetime"; "count"; "subtotal"; "tax_rate"; "total"].

(** A text of decimal digits only. *)
Definition all_digits (s : string) : bool :=
  forallb PyFloat.is_digit (list_ascii_of_string s).

(** A text of blanks only. *)
Definition all_space (s : string) : bool :=
  forallb PyStr.isspace (list_ascii_of_string s).

(** A character of an unsigned numeral: a digit or the point. *)
Definition num_char (c : ascii) : bool :=
  PyFloat.is_digit c || Ascii.eqb c ".".

(** The object at [row] is a row the writer accepts and whose cells the
    reader takes. *)
Definition appendable `{PyRuntime} (w : world) (row : nat) : bool :=
  match heap w !! row with
  | Some r =>
      known_keys fieldnames r
      && match cells_of r with
         | Ok cells => forallb fits cells
         | Raise _ => false
         end
  | None => false
  end.

(** The text of [n] copies of a character. *)
Fixpoint repeat_char (n : nat) (c : ascii) : string :=
  match n with
  | O => EmptyString
  | S n' => String c (repeat_char n' c)
  end.

(** Every cell under a field name is text or [None]. *)
Definition named_cells (d : pydict) : Prop :=
  forall k v, d !! Some k = Some v -> is_cell v = true.

(** Every field name of the row is one of [names]. *)
Definition keys_within (names : list string) (d : pydict) : Prop :=
  forall k, is_Some (d !! Some k) -> k ∈ names.

(** * Properties *)

(** ** The price parser *)

(** No exception leaves [parse_price]. *)
Lemma parse_price_no_raise (text : option string) :
  exists v, parse_price text = Ok v.
Proof.
  destruct text as [text|]; simpl; [|eauto].
  destruct (String.eqb _ _); [eauto|].
  destruct (PyFloat.of_string _) as [value|e]; [|eauto].
  destruct (PyFloat.ltb _ _); eauto.
Qed.

(** Blank text is skipped. *)
Lemma parse_price_blank (text : string) :
  PyStr.strip text = "" -> parse_price (Some text) = Ok None.
Proof. intros E. unfold parse_price. rewrite E. reflexivity. Qed.

(** No comma is left after [replace(",", "")]. *)
Lemma replace_comma_none (s : string) :
  PyStr.mem_char "," (PyStr.replace_char "," "" s) = false.
Proof.
  induction s as [|c s IH]; simpl; [reflexivity|].
  destruct (Ascii.eqb c ",") eqn:E; simpl; [exact IH|].
  rewrite E, IH. reflexivity.
Qed.

(** C5, at the input ["nan"]: the text is no number, yet the parser
    returns the float NaN for it instead of [None], because the test
    [value < 0] is false for NaN. *)
Theorem parse_price_nan :
  parse_price (Some "nan") = Ok (Some S754_nan).
Proof. reflexivity. Qed.

(** The same happens for the infinities and, with a negative zero for a
    result, for a negative literal too small for a float. *)
Lemma parse_price_inf :
  parse_price (Some "inf") = Ok (Some (S754_infinity false)).
Proof. reflexivity. Qed.

Lemma parse_price_tiny_negative :
  parse_price (Some "-1e-400") = Ok (Some (S754_zero true)).
Proof. vm_compute. reflexivity. Qed.

(** What the parser does right: plain and grouped numerals give their
    value, negative ones and text that is no numeral give [None]. *)
Lemma parse_price_examples :
  parse_price (Some "120") = Ok (Some (PyFloat.of_decimal false 120 0))
  /\ parse_price (Some "980.5") = Ok (Some (PyFloat.of_decimal false 9805 (-1)))
  /\ parse_price (Some " 1,200 ") = Ok (Some (PyFloat.of_decimal false 1200 0))
  /\ parse_price (Some "-3") = Ok None
  /\ parse_price (Some "abc") = Ok None
  /\ parse_price (Some "   ") = Ok None
  /\ parse_price None = Ok None.
Proof. vm_compute. repeat split. Qed.

(** C10: every comma of the trimmed text is deleted before the
    conversion, wherever it stands; so when the text without its commas
    converts to a float [v] that is not below zero, [parse_price] returns
    [v]. *)
Theorem parse_price_commas (text : string) (v : spec_float) :
  PyFloat.of_string (PyStr.replace_char "," "" (PyStr.strip text)) = Ok v ->
  PyFloat.ltb v PyFloat.zero = false ->
  parse_price (Some text) = Ok (Some v).
Proof.
  intros Hv Hpos. unfold parse_price.
  destruct (String.eqb_spec (PyStr.strip text) "") as [E|_].
  - rewrite E in Hv. discriminate Hv.
  - rewrite Hv, Hpos. reflexivity.
Qed.

Lemma parse_price_commas_witness :
  parse_price (Some "1,2,3") = Ok (Some (PyFloat.of_decimal false 123 0)).
Proof.
  apply (parse_price_commas "1,2,3" (PyFloat.of_decimal false 123 0));
    vm_compute; reflexivity.
Defined.

Lemma parse_price_leading_comma :
  parse_price (Some ",5") = Ok (Some (PyFloat.of_decimal false 5 0)).
Proof. vm_compute. reflexivity. Qed.

(** ** The settings store *)

Section Settings.
Context `{PyRuntime}.

Lemma load_settings_state (w : world) :
  snd (load_settings w) = ensure_data_dir w.
Proof.
  unfold load_settings. simpl.
  destruct (settings_file w) as [text|]; [|reflexivity].
  destruct (load_settings_try text); reflexivity.
Qed.

(** A document that is no mapping falls back to the default as well,
    unless it is a list or a text in which ["tax_rate"] occurs. *)
Lemma load_settings_scalar (w : world) (text : string) (doc : json) :
  settings_file w = Some text ->
  json_load text = Ok doc ->
  match doc with JNull | JBool _ | JInt _ | JFloat _ => True | _ => False end ->
  fst (load_settings w) = JDict default_settings.
Proof.
  intros Hf Hl Hd. unfold load_settings, load_settings_try. simpl.
  rewrite Hf, Hl. destruct doc; simpl; try reflexivity; contradiction.
Qed.

(** C6: [load_settings] returns the default [{tax_rate: 0.10}] when the
    settings file is absent and when its content is malformed; when the
    content is a mapping without the key [tax_rate], the result is that
    mapping with [tax_rate = 0.10] added and every other key unchanged. *)
Theorem load_settings_fallback :
  (forall w, settings_file w = None ->
     fst (load_settings w) = JDict default_settings)
  /\ (forall w text e, settings_file w = Some text ->
        json_load text = Raise e ->
        fst (load_settings w) = JDict default_settings)
  /\ (forall w text d, settings_file w = Some text ->
        json_load text = Ok (JDict d) ->
        d !! "tax_rate" = None ->
        exists d',
          fst (load_settings w) = JDict d'
          /\ d' !! "tax_rate" = Some (JFloat tax_rate_default)
          /\ forall k, k <> "tax_rate" -> d' !! k = d !! k)
  /\ default_settings = {[ "tax_rate" := JFloat tax_rate_default ]}
  /\ tax_rate_default = PyFloat.of_decimal false 10 (-2).
Proof.
  repeat split.
  - intros w Hf. unfold load_settings. simpl. rewrite Hf. reflexivity.
  - intros w text e Hf Hl. unfold load_settings, load_settings_try. simpl.
    rewrite Hf, Hl. reflexivity.
  - intros w text d Hf Hl Hk.
    exists (<["tax_rate" := JFloat tax_rate_default]> d).
    unfold load_settings, load_settings_try. simpl.
    rewrite Hf, Hl. simpl. rewrite Hk. simpl. split; [reflexivity|].
    split; [apply lookup_insert_eq|].
    intros k Hne. apply lookup_insert_ne. congruence.
Qed.

(** Equality of two mappings: the same number of keys, and under each
    key of the first an equal value in the second. *)
Lemma py_eq_dict (d e : gmap string json) :
  py_eq (JDict d) (JDict e) = true
  <-> size d = size e
      /\ forall k v, d !! k = Some v ->
           exists v', e !! k = Some v' /\ py_eq v v' = true.
Proof.
  cbn [py_eq]. rewrite andb_true_iff, Nat.eqb_eq.
  apply and_iff_compat_l.
  apply (map_fold_weak_ind
           (fun (b : bool) (m : gmap string json) =>
              b = true <->
              forall k v, m !! k = Some v ->
                exists v', e !! k = Some v' /\ py_eq v v' = true)).
  - split; [|reflexivity]. intros _ k v Hk. rewrite lookup_empty in Hk.
    discriminate Hk.
  - intros k v m b Hnone IH. rewrite andb_true_iff, IH. split.
    + intros [Hm Hv] k' v' Hk'.
      destruct (decide (k' = k)) as [->|Hne].
      * rewrite lookup_insert_eq in Hk'. injection Hk' as <-.
        destruct (e !! k) as [x|]; [|discriminate]. eauto.
      * rewrite lookup_insert_ne in Hk' by congruence. eauto.
    + intros Hall. split.
      * intros k' v' Hk'. apply Hall. rewrite lookup_insert_ne; [exact Hk'|].
        intros <-. congruence.
      * destruct (Hall k v) as (x & Hx & Heq);
          [apply lookup_insert_eq|]. rewrite Hx. exact Heq.
Qed.

Lemma py_eq_dict_keys (d e : gmap string json) (k : string) :
  py_eq (JDict d) (JDict e) = true ->
  is_Some (e !! k) -> is_Some (d !! k).
Proof.
  rewrite py_eq_dict. intros [Hsize Hall] Hk.
  assert (Hsub : dom d ⊆ dom e).
  { intros x Hx. apply elem_of_dom in Hx as [v Hv].
    destruct (Hall x v Hv) as (v' & Hv' & _). apply elem_of_dom. eauto. }
  assert (Heq : dom d ≡ dom e).
  { apply set_subseteq_size_equiv; [exact Hsub|].
    rewrite !size_dom. lia. }
  apply elem_of_dom. apply Heq. apply elem_of_dom. exact Hk.
Qed.

(** Nothing equals a NaN, and nothing equals a mapping that holds one. *)
Lemma py_eq_nan (x : json) : py_eq x (JFloat S754_nan) = false.
Proof.
  destruct x as [|b|z|f|s|l|d]; try reflexivity. destruct f; reflexivity.
Qed.

Lemma py_eq_nan_doc (x : json) (d : gmap string json) (k : string) :
  d !! k = Some (JFloat S754_nan) -> py_eq x (JDict d) = false.
Proof.
  intros Hk. destruct (py_eq x (JDict d)) eqn:E; [|reflexivity].
  destruct x as [| | | | | |d0]; try discriminate E.
  destruct (py_eq_dict_keys d0 d k E) as [v Hv]; [eauto|].
  apply py_eq_dict in E as [_ Hall].
  destruct (Hall k v Hv) as (v' & Hv' & Heq).
  rewrite Hk in Hv'. injection Hv' as <-. rewrite py_eq_nan in Heq.
  discriminate Heq.
Qed.

(** Whatever the JSON library does, a saved mapping that holds a NaN never
    loads as a value equal to it. *)
Lemma round_trip_nan_unequal (s : gmap string json) (k : string) (w : world) :
  s !! k = Some (JFloat S754_nan) ->
  py_eq (fst (load_settings (save_settings s w))) (JDict s) = false.
Proof. intros Hk. apply (py_eq_nan_doc _ s k Hk). Qed.


(** C8: with no settings file, [load_settings] returns the default rate
    0.10 and leaves both files as they were: the settings file is still
    absent afterwards. Only the data directory is made. *)
Theorem load_settings_fresh (d : bool) (hist : option string)
  (h : gmap nat pydict) :
  load_settings (World d None hist h)
  = (JDict {[ "tax_rate" := JFloat (PyFloat.of_decimal false 10 (-2)) ]},
     World true None hist h).
Proof. reflexivity. Qed.

End Settings.

Lemma load_settings_fallback_witness :
  let H := sample_runtime in
  fst (load_settings (World true None None ∅)) = JDict default_settings
  /\ fst (load_settings (World true (Some "{") None ∅)) = JDict default_settings
  /\ exists d',
       fst (load_settings (World true (Some "{}") None ∅)) = JDict d'
       /\ d' !! "tax_rate" = Some (JFloat tax_rate_default)
       /\ forall k, k <> "tax_rate" -> d' !! k = (∅ : gmap string json) !! k.
Proof.
  intros H.
  destruct (@load_settings_fallback H) as (Habsent & Hbad & Hmiss & _).
  split; [apply Habsent; reflexivity|].
  split; [apply (Hbad _ "{" ValueError); reflexivity|].
  apply (Hmiss _ "{}" ∅); reflexivity.
Defined.


(** C7 as stated fails for a mapping that holds a NaN: what is loaded is
    again a mapping with the tax rate NaN, and it is not equal to the one
    saved, a NaN being equal to nothing. *)
Lemma settings_round_trip_nan :
  let H := sample_runtime in
  let w := World false None None ∅ in
  is_Some (nan_settings !! "tax_rate")
  /\ settings_file (save_settings nan_settings w) = Some nan_text
  /\ fst (load_settings (save_settings nan_settings w)) = JDict nan_settings
  /\ py_eq (fst (load_settings (save_settings nan_settings w)))
       (JDict nan_settings) = false.
Proof.
  intros H w. split; [eexists; reflexivity|]. split; [reflexivity|].
  split; [reflexivity|]. vm_compute. reflexivity.
Qed.

(** ** The ledger: clearing and the argument of [append_history_row] *)

Lemma read_history_absent (w : world) :
  history_file w = None -> read_history_rows w = Ok [].
Proof. intros E. unfold read_history_rows. rewrite E. reflexivity. Qed.

(** C4: clearing an absent ledger returns [false] and changes nothing;
    clearing a present one returns [true], removes the file, and reading
    afterwards gives the empty list. *)
Theorem clear_ledger (d : bool) (s : option string) (h : gmap nat pydict) :
  delete_history_file (World d s None h) = (false, World d s None h)
  /\ forall text,
       delete_history_file (World d s (Some text) h)
       = (true, World d s None h)
       /\ read_history_rows
            (snd (delete_history_file (World d s (Some text) h))) = Ok [].
Proof. split; [reflexivity|]. intros text. split; reflexivity. Qed.

Section Append.
Context `{PyRuntime}.

(** The heap after [append_history_row]: only the argument can change,
    and only by gaining the key [memo]. *)
Lemma append_history_row_heap (row : nat) (w : world) :
  heap (snd (append_history_row row w))
  = if dict_has (deref w row) "memo" then heap w
    else <[row := <[Some "memo" := PStr ""]> (deref w row)]> (heap w).
Proof.
  unfold append_history_row.
  set (w1 := write_history "" (ensure_data_dir w)).
  set (w2 := if match history_file (ensure_data_dir w) with
                | Some _ => true | None => false end
             then w1 else write_history (csv_line fieldnames) w1).
  assert (Hh : heap w2 = heap w).
  { unfold w2, w1. destruct (history_file (ensure_data_dir w)); reflexivity. }
  assert (Hd : deref w2 row = deref w row).
  { unfold deref. rewrite Hh. reflexivity. }
  rewrite Hd.
  destruct (dict_has (deref w row) "memo") eqn:Hm.
  - rewrite Hd. destruct (dict_to_list _ _) as [values|e]; [|exact Hh].
    destruct (csv_cells values); exact Hh.
  - destruct (dict_to_list _ _) as [values|e];
      [destruct (csv_cells values)|]; simpl; rewrite Hh; reflexivity.
Qed.

(** C9: a dict passed without the key [memo] is changed in place, it holds
    [memo = ""] after the call; a dict that has the key is left as it is;
    no other object changes. *)
Theorem append_mutates_argument (row : nat) (w : world) (d : pydict) :
  heap w !! row = Some d ->
  let w' := snd (append_history_row row w) in
  (d !! Some "memo" = None ->
     heap w' !! row = Some (<[Some "memo" := PStr ""]> d))
  /\ (is_Some (d !! Some "memo") -> heap w' !! row = Some d)
  /\ (forall l, l <> row -> heap w' !! l = heap w !! l).
Proof.
  intros Hd w'. unfold w'. rewrite append_history_row_heap.
  assert (Hr : deref w row = d) by (unfold deref; rewrite Hd; reflexivity).
  rewrite Hr. unfold dict_has. repeat split.
  - intros Hm. rewrite Hm. apply lookup_insert_eq.
  - intros [v Hm]. rewrite Hm. exact Hd.
  - intros l Hne. destruct (d !! Some "memo"); [reflexivity|].
    apply lookup_insert_ne. congruence.
Qed.

End Append.

Lemma append_mutates_argument_witness :
  let H := sample_runtime in
  let d : pydict := {[ Some "total" := PStr "110.0" ]} in
  let w := World false None None {[ 7%nat := d ]} in
  heap (snd (append_history_row 7%nat w)) !! 7%nat
  = Some (<[Some "memo" := PStr ""]> d).
Proof.
  intros H d w.
  apply (@append_mutates_argument H 7%nat w d); reflexivity.
Defined.

(** ** The recent trend *)

Lemma slice_from_last (A : Type) (n : Z) (l : list A) :
  (1 <= n)%Z -> slice_from (- n) l = Spec.last_n (Z.to_nat n) l.
Proof.
  intros Hn. unfold slice_from, Spec.last_n.
  destruct (Z.ltb_spec (- n) 0) as [_|Hge]; [|lia].
  f_equal. lia.
Qed.

Lemma slice_5_16 (s : string) :
  (16 <= String.length s)%nat -> PyStr.slice 5 16 s = Spec.chars_5_to_15 s.
Proof.
  intros Hlen.
  do 16 (destruct s as [|? s]; [simpl in Hlen; lia|]).
  unfold PyStr.slice, Spec.chars_5_to_15. simpl.
  destruct s; reflexivity.
Qed.

Lemma label_of_text (s : string) :
  label_of (PStr s) = Ok (PStr (Spec.label s)).
Proof.
  unfold label_of, Spec.label, PyStr.len.
  destruct (Z.leb_spec 16 (Z.of_nat (String.length s))) as [Hge|Hlt];
    destruct (Nat.ltb_spec (String.length s) 16) as [Hlt'|Hge']; try lia.
  - rewrite slice_5_16 by exact Hge'. reflexivity.
  - reflexivity.
Qed.

Lemma trend_loop_text (recent : list pydict) (acc : trend) :
  Forall (fun r => is_text (dict_get r "datetime" (PStr "")) = true) recent ->
  trend_loop recent acc
  = Ok {| x_labels :=
            x_labels acc
            ++ map (fun r =>
                      PStr (Spec.label (text_of (dict_get r "datetime" (PStr "")))))
                 recent;
          totals := totals acc ++ map total_of recent;
          memos := memos acc ++ map (fun r => dict_get r "memo" (PStr "")) recent |}.
Proof.
  intros Hall. revert acc.
  induction Hall as [|r recent Hr _ IH]; intros acc; simpl.
  - rewrite !app_nil_r. destruct acc; reflexivity.
  - destruct (dict_get r "datetime" (PStr "")) as [|s| | |] eqn:E;
      try discriminate Hr.
    rewrite label_of_text, IH. simpl.
    rewrite <- !app_assoc. reflexivity.
Qed.

(** C3: for a window size [n] of at least 1 (the slider offers 5 to 50)
    and rows whose date is text, the trend is computed from exactly the
    last [n] rows in file order, all rows when there are fewer; the three
    lists follow those rows in that order; a label is characters 5 through
    15 of a date of at least 16 characters and the date itself otherwise;
    a total is the row's total as a float, 0.0 when the conversion
    fails. *)
Theorem recent_trend_window (n : Z) (rows : list pydict) :
  (1 <= n)%Z ->
  Forall (fun r => is_text (dict_get r "datetime" (PStr "")) = true) rows ->
  let recent := Spec.last_n (Z.to_nat n) rows in
  recent_trend n rows
  = Ok (recent,
        {| x_labels :=
             map (fun r =>
                    PStr (Spec.label (text_of (dict_get r "datetime" (PStr "")))))
               recent;
           totals :=
             map (fun r =>
                    match py_float (dict_get r "total" (PInt 0)) with
                    | Ok t => t
                    | Raise _ => PyFloat.zero
                    end) recent;
           memos := map (fun r => dict_get r "memo" (PStr "")) recent |}).
Proof.
  intros Hn Hall recent. unfold recent_trend.
  rewrite slice_from_last by exact Hn. fold recent.
  rewrite trend_loop_text; [reflexivity|].
  unfold recent, Spec.last_n. apply Forall_drop. exact Hall.
Qed.

Lemma recent_trend_window_witness :
  let row (dt total memo : string) : pydict :=
    <[Some "datetime" := PStr dt]>
      (<[Some "total" := PStr total]> {[ Some "memo" := PStr memo ]}) in
  let r1 := row "2024-01-31 23:10:05" "110.0" "market" in
  let r2 := row "2024-02-01" "abc" "" in
  let r3 := row "2024-02-02 08:00:00" "55" "bakery" in
  recent_trend 2 [r1; r2; r3]
  = Ok ([r2; r3],
        {| x_labels := [PStr "2024-02-01"; PStr "02-02 08:00"];
           totals := [PyFloat.zero; PyFloat.of_decimal false 55 0];
           memos := [PStr ""; PStr "bakery"] |}).
Proof.
  intros row r1 r2 r3.
  apply (recent_trend_window 2 [r1; r2; r3]); [lia|].
  repeat constructor.
Defined.

(** ** The order of floats *)

Ltac cmp_cases :=
  repeat match goal with
  | |- context [Z.compare ?a ?b] => destruct (Z.compare_spec a b)
  | |- context [Pos.compare_cont Eq ?a ?b] =>
      change (Pos.compare_cont Eq a b) with (Pos.compare a b);
      destruct (Pos.compare_spec a b)
  | H : context [Z.compare ?a ?b] |- _ => destruct (Z.compare_spec a b)
  | H : context [Pos.compare_cont Eq ?a ?b] |- _ =>
      change (Pos.compare_cont Eq a b) with (Pos.compare a b) in H;
      destruct (Pos.compare_spec a b)
  end.

Lemma SFleb_trans (a b c : spec_float) :
  SFleb a b = true -> SFleb b c = true -> SFleb a c = true.
Proof.
  unfold SFleb, SFcompare.
  destruct a as [sa|sa| |sa ma ea], b as [sb|sb| |sb mb eb],
    c as [sc|sc| |sc mc ec];
    try destruct sa; try destruct sb; try destruct sc;
    simpl; intros Hab Hbc; try discriminate; try reflexivity;
    cmp_cases; simpl in *; try discriminate; try reflexivity; try lia.
Qed.

Lemma SFltb_false_leb (a b : spec_float) :
  a <> S754_nan -> b <> S754_nan -> SFltb a b = false -> SFleb b a = true.
Proof.
  unfold SFltb, SFleb, SFcompare.
  destruct a as [sa|sa| |sa ma ea], b as [sb|sb| |sb mb eb];
    try destruct sa; try destruct sb;
    simpl; intros Ha Hb H; try congruence;
    cmp_cases; simpl in *; try discriminate; try reflexivity; try lia.
Qed.

Lemma SFleb_ltb_false (a b : spec_float) :
  SFleb a b = true -> SFltb b a = false.
Proof.
  unfold SFltb, SFleb, SFcompare.
  destruct a as [sa|sa| |sa ma ea], b as [sb|sb| |sb mb eb];
    try destruct sa; try destruct sb;
    simpl; intros H; try discriminate; try reflexivity;
    cmp_cases; simpl in *; try discriminate; try reflexivity; try lia.
Qed.

Lemma SFltb_asym (a b : spec_float) : SFltb a b = true -> SFltb b a = false.
Proof.
  unfold SFltb, SFcompare.
  destruct a as [sa|sa| |sa ma ea], b as [sb|sb| |sb mb eb];
    try destruct sa; try destruct sb;
    simpl; intros H; try discriminate; try reflexivity;
    cmp_cases; simpl in *; try discriminate; try reflexivity; try lia.
Qed.

(** ** The insertion sort *)

Section Sorting.
Context {A : Type} (lt : A -> A -> bool) (P : A -> Prop).

(** [a] may stand in front of [b]. *)
Let R (a b : A) : Prop := lt b a = false.

Hypothesis lt_asym : forall a b, lt a b = true -> lt b a = false.
Hypothesis R_trans : forall a b c, P a -> P b -> P c -> R a b -> R b c -> R a c.

Lemma insert_by_perm (x : A) (l : list A) : insert_by lt x l ≡ₚ x :: l.
Proof.
  induction l as [|y l IH]; simpl; [reflexivity|].
  destruct (lt y x); [|reflexivity].
  rewrite IH. apply Permutation_swap.
Qed.

Lemma sort_by_perm (l : list A) : sort_by lt l ≡ₚ l.
Proof.
  induction l as [|x l IH]; simpl; [reflexivity|].
  rewrite insert_by_perm, IH. reflexivity.
Qed.

Lemma insert_by_sorted (x : A) (l : list A) :
  P x -> Forall P l -> StronglySorted R l ->
  StronglySorted R (insert_by lt x l).
Proof.
  intros Hx Hl Hs. induction Hs as [|y l Hs IH Hy]; simpl.
  - repeat constructor.
  - apply Forall_cons in Hl as [Py Pl].
    destruct (lt y x) eqn:E.
    + constructor; [apply IH; exact Pl|].
      rewrite insert_by_perm. constructor; [|exact Hy].
      unfold R. apply lt_asym. exact E.
    + constructor; [constructor; assumption|].
      constructor; [exact E|].
      rewrite Forall_forall in Hy, Pl |- *. intros z Hz.
      apply (R_trans x y z); auto.
Qed.

Lemma sort_by_sorted (l : list A) :
  Forall P l -> StronglySorted R (sort_by lt l).
Proof.
  induction 1 as [|x l Hx Hl IH]; simpl; [constructor|].
  apply insert_by_sorted; [exact Hx| |exact IH].
  rewrite sort_by_perm. exact Hl.
Qed.

End Sorting.

Lemma StronglySorted_rev {A : Type} (R : A -> A -> Prop) (l : list A) :
  StronglySorted R l -> StronglySorted (flip R) (rev l).
Proof.
  induction 1 as [|x l Hs IH Hx]; simpl; [constructor|].
  apply StronglySorted_app_2; [|exact IH|repeat constructor].
  intros a b Ha Hb. apply list_elem_of_singleton in Hb. subst b.
  unfold flip. rewrite Forall_forall in Hx. apply Hx.
  apply list_elem_of_In. apply in_rev. apply list_elem_of_In. exact Ha.
Qed.

Lemma StronglySorted_lookup {A : Type} (R : A -> A -> Prop) (l : list A) :
  StronglySorted R l ->
  forall i j a b, (i < j)%nat -> l !! i = Some a -> l !! j = Some b -> R a b.
Proof.
  induction 1 as [|x l Hs IH Hx]; intros i j a b Hij Hi Hj.
  - destruct i; discriminate.
  - destruct j as [|j]; [lia|]. simpl in Hj. destruct i as [|i].
    + simpl in Hi. injection Hi as <-.
      rewrite Forall_forall in Hx. apply Hx.
      eapply list_elem_of_lookup_2. exact Hj.
    + simpl in Hi. apply (IH i j); [lia|assumption..].
Qed.

(** ** Totals by memo *)

Lemma memo_key_cell (r : pydict) :
  is_cell (dict_get r "memo" (PStr "")) = true ->
  memo_key r = Ok (bucket_of r).
Proof.
  unfold memo_key, bucket_of, Spec.bucket.
  destruct (dict_get r "memo" (PStr "")) as [|s| | |]; try discriminate;
    intros _; [reflexivity|].
  simpl. destruct (String.eqb_spec s "") as [->|Hne]; simpl; [reflexivity|].
  destruct (PyStr.strip s); reflexivity.
Qed.

Lemma bucket_get_add (k memo : string) (t : spec_float)
  (buckets : list (string * spec_float)) :
  bucket_get k (bucket_add memo t buckets)
  = if String.eqb memo k
    then Some (PyFloat.add (default PyFloat.zero (bucket_get memo buckets)) t)
    else bucket_get k buckets.
Proof.
  induction buckets as [|[k' v] rest IH]; simpl.
  - reflexivity.
  - destruct (String.eqb_spec k' memo) as [->|Hne]; simpl.
    + destruct (String.eqb_spec memo k); reflexivity.
    + rewrite IH.
      destruct (String.eqb_spec memo k) as [<-|Hne'].
      * destruct (String.eqb_spec k' memo); [contradiction|reflexivity].
      * reflexivity.
Qed.

Lemma bucket_add_keys (k memo : string) (t : spec_float)
  (buckets : list (string * spec_float)) :
  k ∈ map fst (bucket_add memo t buckets)
  <-> k = memo \/ k ∈ map fst buckets.
Proof.
  induction buckets as [|[k' v] rest IH]; simpl.
  - rewrite list_elem_of_singleton, elem_of_nil. tauto.
  - destruct (String.eqb_spec k' memo) as [->|Hne]; simpl.
    + rewrite !elem_of_cons. tauto.
    + rewrite !elem_of_cons, IH. tauto.
Qed.

Lemma bucket_add_nodup (memo : string) (t : spec_float)
  (buckets : list (string * spec_float)) :
  NoDup (map fst buckets) -> NoDup (map fst (bucket_add memo t buckets)).
Proof.
  induction buckets as [|[k' v] rest IH]; simpl; intros Hnd.
  - repeat constructor. set_solver.
  - apply NoDup_cons in Hnd as [Hk Hnd].
    destruct (String.eqb_spec k' memo) as [->|Hne]; simpl.
    + apply NoDup_cons. split; assumption.
    + apply NoDup_cons. split; [|apply IH; exact Hnd].
      rewrite bucket_add_keys. intros [->|Hin]; [congruence|contradiction].
Qed.

Lemma bucket_get_elem (k : string) (v : spec_float)
  (buckets : list (string * spec_float)) :
  NoDup (map fst buckets) ->
  (k, v) ∈ buckets <-> bucket_get k buckets = Some v.
Proof.
  induction buckets as [|[k' v'] rest IH]; simpl; intros Hnd.
  - split; [intros Hin; inversion Hin|discriminate].
  - apply NoDup_cons in Hnd as [Hk Hnd]. rewrite elem_of_cons.
    destruct (String.eqb_spec k' k) as [->|Hne].
    + split.
      * intros [Heq|Hin]; [congruence|].
        exfalso. apply Hk. apply (list_elem_of_fmap_2 fst) in Hin. exact Hin.
      * intros Heq. left. congruence.
    + rewrite <- IH by exact Hnd. split.
      * intros [Heq|Hin]; [congruence|exact Hin].
      * intros Hin. right. exact Hin.
Qed.

Lemma bucket_loop_get (rows : list pydict)
  (acc : list (string * spec_float)) :
  Forall (fun r => is_cell (dict_get r "memo" (PStr "")) = true) rows ->
  exists res,
    bucket_loop rows acc = Ok res
    /\ (NoDup (map fst acc) -> NoDup (map fst res))
    /\ forall k,
         bucket_get k res
         = match filter (fun r => bucket_of r = k) rows with
           | [] => bucket_get k acc
           | l =>
               Some (foldl PyFloat.add
                       (default PyFloat.zero (bucket_get k acc))
                       (map total_of l))
           end.
Proof.
  intros Hall. revert acc.
  induction Hall as [|r rows Hr _ IH]; intros acc; simpl.
  - exists acc. repeat split; auto.
  - rewrite (memo_key_cell r Hr).
    destruct (IH (bucket_add (bucket_of r) (total_of r) acc))
      as (res & Hres & Hnd & Hget).
    exists res. split; [exact Hres|]. split.
    + intros Hacc. apply Hnd. apply bucket_add_nodup. exact Hacc.
    + intros k. rewrite Hget, bucket_get_add. rewrite filter_cons.
      destruct (decide (bucket_of r = k)) as [->|Hne].
      * rewrite String.eqb_refl. simpl.
        destruct (filter _ rows); reflexivity.
      * destruct (String.eqb_spec (bucket_of r) k); [contradiction|].
        reflexivity.
Qed.

Lemma value_lt_asym (a b : string * spec_float) :
  value_lt a b = true -> value_lt b a = false.
Proof. apply SFltb_asym. Qed.

Lemma value_lt_trans (a b c : string * spec_float) :
  snd a <> S754_nan -> snd b <> S754_nan -> snd c <> S754_nan ->
  value_lt b a = false -> value_lt c b = false -> value_lt c a = false.
Proof.
  unfold value_lt, PyFloat.ltb. intros Ha Hb Hc Hab Hbc.
  apply SFleb_ltb_false. apply (SFleb_trans _ (snd b)).
  - apply SFltb_false_leb; assumption.
  - apply SFltb_false_leb; assumption.
Qed.

Lemma sorted_desc_perm (items : list (string * spec_float)) :
  sorted_desc items ≡ₚ items.
Proof.
  unfold sorted_desc.
  rewrite <- Permutation_rev, sort_by_perm, <- Permutation_rev. reflexivity.
Qed.

(** Without a NaN among the values, [sorted_desc] puts no value in front
    of a greater one. *)
Lemma sorted_desc_descending (items : list (string * spec_float)) (n : nat) :
  Forall (fun kv => snd kv <> S754_nan) items ->
  Spec.descending (take n (sorted_desc items)).
Proof.
  intros Hnan.
  assert (Hs : StronglySorted (flip (fun a b => value_lt b a = false))
                 (sorted_desc items)).
  { unfold sorted_desc. apply StronglySorted_rev.
    apply (sort_by_sorted value_lt (fun kv => snd kv <> S754_nan)).
    - exact value_lt_asym.
    - exact value_lt_trans.
    - rewrite <- Permutation_rev. exact Hnan. }
  rewrite <- (take_drop n (sorted_desc items)) in Hs.
  apply StronglySorted_app_1_l in Hs.
  intros i j a b Hij Hi Hj.
  assert (Hin : forall x, x ∈ take n (sorted_desc items) -> snd x <> S754_nan).
  { intros x Hx. rewrite Forall_forall in Hnan. apply Hnan.
    rewrite <- (sorted_desc_perm items).
    apply (subseteq_take n). exact Hx. }
  apply SFltb_false_leb.
  - apply Hin. eapply list_elem_of_lookup_2. exact Hi.
  - apply Hin. eapply list_elem_of_lookup_2. exact Hj.
  - exact (StronglySorted_lookup _ _ Hs i j a b Hij Hi Hj).
Qed.



(** The example of the specification: totals 10, 20 and 5 under ["A"] and
    3 under the empty memo. *)
Lemma memo_totals_example :
  let row (memo total : string) : pydict :=
    <[Some "memo" := PStr memo]> {[ Some "total" := PStr total ]} in
  memo_totals [row "A" "10"; row "A" "20"; row "" "3"; row "A" "5"]
  = Ok [("A", PyFloat.of_decimal false 35 0);
        ("(no memo)", PyFloat.of_decimal false 3 0)].
Proof. vm_compute. reflexivity. Qed.


(** ** The reader: lines and the one-pass reading agree *)

#[local] Arguments String.append !_ _ / : simpl nomatch.

Lemma append_nil_r (s : string) : s +:+ "" = s.
Proof. induction s as [|c s IH]; simpl; [reflexivity|]. f_equal. exact IH. Qed.

Lemma append_assoc (a b c : string) : (a +:+ b) +:+ c = a +:+ (b +:+ c).
Proof. induction a as [|x a IH]; simpl; [reflexivity|]. f_equal. exact IH. Qed.

Lemma append_length (a b : string) :
  String.length (a +:+ b) = (String.length a + String.length b)%nat.
Proof. induction a as [|x a IH]; simpl; [reflexivity|]. f_equal. exact IH. Qed.

Lemma snoc_not_empty (cur : string) (c : ascii) :
  String.eqb (cur +:+ String c "") "" = false.
Proof. destruct cur; reflexivity. Qed.

Lemma feed_string_snoc (cur : string) (c : ascii) (p0 : reader) :
  feed_string (cur +:+ String c "") p0
  = match feed_string cur p0 with
    | Ok p => process_char (Ch c) p
    | Raise e => Raise e
    end.
Proof.
  revert p0. induction cur as [|x cur IH]; intros p0; simpl.
  - destruct (process_char (Ch c) p0); reflexivity.
  - destruct (process_char (Ch x) p0); [apply IH|reflexivity].
Qed.

Lemma read_records_raise (s cur : string) (p0 : reader) (e : exn) :
  feed_string cur p0 = Raise e -> cur <> "" ->
  read_records (readlines_from cur s) p0 = Raise e.
Proof.
  revert cur. induction s as [|c rest IH]; intros cur Hraise Hne; simpl.
  - destruct cur; [contradiction|]. simpl. unfold feed_line.
    rewrite Hraise. reflexivity.
  - assert (Hnext : feed_string (cur +:+ String c "") p0 = Raise e)
      by (rewrite feed_string_snoc, Hraise; reflexivity).
    assert (Hne' : cur +:+ String c "" <> "") by (destruct cur; discriminate).
    assert (Hline : forall lines,
               read_records ((cur +:+ String c "") :: lines) p0 = Raise e).
    { intros lines. simpl. unfold feed_line. rewrite Hnext. reflexivity. }
    destruct (Ascii.eqb c lf); [apply Hline|].
    destruct (Ascii.eqb c cr); [|apply IH; assumption].
    destruct rest as [|c2 rest']; [apply Hline|].
    destruct (Ascii.eqb c2 lf); [apply IH; assumption|apply Hline].
Qed.

Lemma read_records_scan (s cur : string) (p0 p : reader) :
  feed_string cur p0 = Ok p ->
  read_records (readlines_from cur s) p0
  = scan s (negb (String.eqb cur "")) p.
Proof.
  revert cur p0 p. induction s as [|c rest IH]; intros cur p0 p Hfed.
  - simpl. destruct cur as [|x cur]; simpl.
    + simpl in Hfed. injection Hfed as <-. reflexivity.
    + unfold feed_line. rewrite Hfed.
      destruct (process_char EOL p) as [p'|e]; [|reflexivity].
      destruct (at_start p'); reflexivity.
  - assert (Hnext : feed_string (cur +:+ String c "") p0 = process_char (Ch c) p)
      by (rewrite feed_string_snoc, Hfed; reflexivity).
    assert (Hline :
      read_records ((cur +:+ String c "") :: readlines_from "" rest) p0
      = match process_char (Ch c) p with
        | Raise e => Raise e
        | Ok p1 =>
            match process_char EOL p1 with
            | Raise e => Raise e
            | Ok p2 =>
                if at_start p2
                then res_map (cons (fields p2)) (scan rest false reader_init)
                else scan rest false p2
            end
        end).
    { simpl. unfold feed_line. rewrite Hnext.
      destruct (process_char (Ch c) p) as [p1|e]; [|reflexivity].
      destruct (process_char EOL p1) as [p2|e]; [|reflexivity].
      destruct (at_start p2).
      - rewrite (IH "" reader_init reader_init eq_refl). simpl.
        destruct (scan rest false reader_init); reflexivity.
      - rewrite (IH "" p2 p2 eq_refl). reflexivity. }
    assert (Hcont :
      read_records (readlines_from (cur +:+ String c "") rest) p0
      = match process_char (Ch c) p with
        | Raise e => Raise e
        | Ok p1 => scan rest true p1
        end).
    { destruct (process_char (Ch c) p) as [p1|e] eqn:E.
      - rewrite (IH _ p0 p1 Hnext), snoc_not_empty. reflexivity.
      - apply read_records_raise; [exact Hnext|].
        destruct cur; discriminate. }
    simpl. unfold ends_line.
    destruct (Ascii.eqb c lf); simpl; [exact Hline|].
    destruct (Ascii.eqb c cr); simpl; [|exact Hcont].
    destruct rest as [|c2 rest'].
    + simpl in Hline. simpl. exact Hline.
    + destruct (Ascii.eqb c2 lf); simpl; [exact Hcont|exact Hline].
Qed.

Lemma csv_rows_scan (text : string) :
  csv_rows text = scan text false reader_init.
Proof. apply (read_records_scan text "" reader_init reader_init eq_refl). Qed.

(** ** The reader on what the writer wrote *)

#[local] Arguments process_char : simpl never.
#[local] Arguments scan : simpl never.

Lemma scan_cons (c : ascii) (rest : string) (b : bool) (p : reader) :
  scan (String c rest) b p
  = match process_char (Ch c) p with
    | Raise e => Raise e
    | Ok p1 =>
        if ends_line c rest then
          match process_char EOL p1 with
          | Raise e => Raise e
          | Ok p2 =>
              if at_start p2
              then res_map (cons (fields p2)) (scan rest false reader_init)
              else scan rest false p2
          end
        else scan rest true p1
    end.
Proof. reflexivity. Qed.

Lemma special_false (c : ascii) :
  special c = false ->
  Ascii.eqb c comma = false /\ Ascii.eqb c dquote = false
  /\ Ascii.eqb c cr = false /\ Ascii.eqb c lf = false.
Proof.
  unfold special. intros E.
  repeat (apply orb_false_elim in E as [E ?]). auto.
Qed.

Lemma ends_line_plain (c : ascii) (rest : string) :
  Ascii.eqb c cr = false -> Ascii.eqb c lf = false -> ends_line c rest = false.
Proof. unfold ends_line. intros -> ->. reflexivity. Qed.

Lemma add_char_ok (c : ascii) (st : pstate) (g : string) (acc : list string) :
  (N.of_nat (String.length g) < field_limit)%N ->
  parse_add_char c (Reader st g acc) = Ok (Reader st (g +:+ String c "") acc).
Proof.
  intros Hlen. unfold parse_add_char. simpl.
  destruct (N.leb_spec field_limit (N.of_nat (String.length g))); [lia|].
  reflexivity.
Qed.

Lemma step_in_field (c : ascii) (g : string) (acc : list string) :
  special c = false ->
  (N.of_nat (String.length g) < field_limit)%N ->
  process_char (Ch c) (Reader IN_FIELD g acc)
  = Ok (Reader IN_FIELD (g +:+ String c "") acc).
Proof.
  intros Hc Hlen. apply special_false in Hc as (Hcomma & _ & Hcr & Hlf).
  unfold process_char, is_newline. simpl. rewrite Hlf, Hcr, Hcomma. simpl.
  apply add_char_ok. exact Hlen.
Qed.

Lemma step_start (c : ascii) (st0 : pstate) (acc : list string) :
  st0 = START_RECORD \/ st0 = START_FIELD ->
  special c = false ->
  process_char (Ch c) (Reader st0 "" acc)
  = Ok (Reader IN_FIELD (String c "") acc).
Proof.
  intros Hst Hc. apply special_false in Hc as (Hcomma & Hdq & Hcr & Hlf).
  destruct Hst as [-> | ->];
    unfold process_char, start_field, is_newline; simpl;
    rewrite Hlf, Hcr, Hdq, Hcomma; reflexivity.
Qed.

Lemma step_start_quote (st0 : pstate) (acc : list string) :
  st0 = START_RECORD \/ st0 = START_FIELD ->
  process_char (Ch dquote) (Reader st0 "" acc)
  = Ok (Reader IN_QUOTED_FIELD "" acc).
Proof. intros [-> | ->]; reflexivity. Qed.

Lemma step_quoted (c : ascii) (g : string) (acc : list string) :
  Ascii.eqb c dquote = false ->
  (N.of_nat (String.length g) < field_limit)%N ->
  process_char (Ch c) (Reader IN_QUOTED_FIELD g acc)
  = Ok (Reader IN_QUOTED_FIELD (g +:+ String c "") acc).
Proof.
  intros Hdq Hlen. unfold process_char. simpl. rewrite Hdq.
  apply add_char_ok. exact Hlen.
Qed.

Lemma step_quote_quote (g : string) (acc : list string) :
  (N.of_nat (String.length g) < field_limit)%N ->
  process_char (Ch dquote) (Reader QUOTE_IN_QUOTED_FIELD g acc)
  = Ok (Reader IN_QUOTED_FIELD (g +:+ String dquote "") acc).
Proof.
  intros Hlen. unfold process_char. simpl.
  rewrite add_char_ok by exact Hlen. reflexivity.
Qed.

(** The characters of an unquoted field. *)
Lemma scan_raw (f g : string) (acc : list string) (b : bool) (tail : string) :
  has_special f = false ->
  (N.of_nat (String.length g + String.length f) <= field_limit)%N ->
  scan (f +:+ tail) b (Reader IN_FIELD g acc)
  = scan tail (b || negb (String.eqb f "")) (Reader IN_FIELD (g +:+ f) acc).
Proof.
  revert g b. induction f as [|c f IH]; intros g b Hsp Hlen.
  - simpl. rewrite orb_false_r, append_nil_r. reflexivity.
  - simpl in Hsp. apply orb_false_elim in Hsp as [Hc Hf].
    simpl in Hlen. simpl. rewrite scan_cons.
    rewrite step_in_field by (try exact Hc; lia).
    apply special_false in Hc as (_ & _ & Hcr & Hlf).
    rewrite ends_line_plain by assumption.
    rewrite IH; [|exact Hf|rewrite append_length; simpl; lia].
    rewrite append_assoc, orb_true_r. reflexivity.
Qed.

(** The inside of a quoted field, up to the closing quote. *)
Lemma scan_quoted (f g : string) (acc : list string) (b : bool) (tail : string) :
  (N.of_nat (String.length g + String.length f) <= field_limit)%N ->
  scan (double_quotes f +:+ String dquote tail) b
    (Reader IN_QUOTED_FIELD g acc)
  = scan tail true (Reader QUOTE_IN_QUOTED_FIELD (g +:+ f) acc).
Proof.
  revert g b. induction f as [|c f IH]; intros g b Hlen.
  - simpl. rewrite scan_cons, append_nil_r. reflexivity.
  - simpl in Hlen. simpl.
    destruct (Ascii.eqb c dquote) eqn:Hdq.
    + apply Ascii.eqb_eq in Hdq. subst c. simpl. rewrite scan_cons.
      change (process_char (Ch dquote) (Reader IN_QUOTED_FIELD g acc))
        with (Ok (Reader QUOTE_IN_QUOTED_FIELD g acc)).
      change (ends_line dquote (String dquote (double_quotes f +:+ String dquote tail)))
        with false.
      cbv iota. rewrite scan_cons.
      rewrite step_quote_quote by lia.
      change (ends_line dquote (double_quotes f +:+ String dquote tail))
        with false.
      cbv iota. rewrite IH by (rewrite append_length; simpl; lia).
      rewrite append_assoc. reflexivity.
    + simpl. rewrite scan_cons. rewrite step_quoted by (try exact Hdq; lia).
      assert (Hnext :
        forall b', scan (double_quotes f +:+ String dquote tail) b'
                     (Reader IN_QUOTED_FIELD (g +:+ String c "") acc)
                   = scan tail true
                       (Reader QUOTE_IN_QUOTED_FIELD (g +:+ String c f) acc)).
      { intros b'. rewrite IH by (rewrite append_length; simpl; lia).
        rewrite append_assoc. reflexivity. }
      destruct (ends_line c _); [|apply Hnext].
      change (process_char EOL (Reader IN_QUOTED_FIELD (g +:+ String c "") acc))
        with (Ok (Reader IN_QUOTED_FIELD (g +:+ String c "") acc)).
      cbv iota. change (at_start (Reader IN_QUOTED_FIELD (g +:+ String c "") acc))
        with false.
      cbv iota. apply Hnext.
Qed.

Lemma fits_length (f : string) :
  fits f = true -> (N.of_nat (String.length f) <= field_limit)%N.
Proof. unfold fits. intros E. apply N.leb_le. exact E. Qed.

(** A written field, from the start of a field: the reader ends with the
    field read, in [st0] itself when the field is empty. *)
Lemma scan_field (f : string) (st0 : pstate) (acc : list string) (b : bool)
  (tail : string) :
  st0 = START_RECORD \/ st0 = START_FIELD ->
  fits f = true ->
  exists st b',
    ((f = "" /\ st = st0) \/ st = IN_FIELD \/ st = QUOTE_IN_QUOTED_FIELD)
    /\ scan (csv_field f +:+ tail) b (Reader st0 "" acc)
       = scan tail b' (Reader st f acc).
Proof.
  intros Hst Hfit. apply fits_length in Hfit. unfold csv_field.
  destruct (has_special f) eqn:Hsp.
  - exists QUOTE_IN_QUOTED_FIELD, true. split; [auto|].
    simpl. rewrite scan_cons, step_start_quote by exact Hst.
    change (ends_line dquote ((double_quotes f +:+ String dquote "") +:+ tail))
      with false.
    cbv iota. rewrite append_assoc. simpl.
    rewrite scan_quoted by (simpl; lia). reflexivity.
  - destruct f as [|c f].
    + exists st0, b. split; [auto|]. reflexivity.
    + exists IN_FIELD, true. split; [auto|].
      simpl in Hsp. apply orb_false_elim in Hsp as [Hc Hf].
      simpl in Hfit. simpl. rewrite scan_cons, step_start by assumption.
      apply special_false in Hc as (_ & _ & Hcr & Hlf).
      rewrite ends_line_plain by assumption.
      rewrite scan_raw by (try exact Hf; simpl; lia).
      reflexivity.
Qed.

(** The comma after a field. *)
Lemma scan_comma (st : pstate) (f : string) (acc : list string) (b : bool)
  (tail : string) :
  st = START_RECORD \/ st = START_FIELD \/ st = IN_FIELD
  \/ st = QUOTE_IN_QUOTED_FIELD ->
  scan (String comma tail) b (Reader st f acc)
  = scan tail true (Reader START_FIELD "" (acc ++ [f])).
Proof. intros [-> | [-> | [-> | ->]]]; reflexivity. Qed.

(** The line ending after the last field. *)
Lemma scan_crlf (st : pstate) (f : string) (acc : list string) (b : bool)
  (rest : string) :
  st = START_FIELD \/ st = IN_FIELD \/ st = QUOTE_IN_QUOTED_FIELD ->
  scan (crlf +:+ rest) b (Reader st f acc)
  = res_map (cons (acc ++ [f])%list) (scan rest false reader_init).
Proof. intros [-> | [-> | ->]]; reflexivity. Qed.

(** The fields of a record and the line ending. *)
Lemma scan_join (fs : list string) (st0 : pstate) (acc : list string)
  (b : bool) (rest : string) :
  fs <> [] ->
  st0 = START_FIELD \/ (st0 = START_RECORD /\ fs <> [""]) ->
  forallb fits fs = true ->
  scan (join_fields fs +:+ crlf +:+ rest) b (Reader st0 "" acc)
  = res_map (cons (acc ++ fs)%list) (scan rest false reader_init).
Proof.
  revert st0 acc b. induction fs as [|f fs IH]; intros st0 acc b Hne Hst Hfit;
    [contradiction|].
  simpl in Hfit. apply andb_prop in Hfit as [Hf Hfs].
  assert (Hst0 : st0 = START_RECORD \/ st0 = START_FIELD) by tauto.
  destruct fs as [|g fs].
  - change (join_fields [f]) with (csv_field f).
    destruct (scan_field f st0 acc b (crlf +:+ rest) Hst0 Hf)
      as (st & b' & Hcase & ->).
    apply scan_crlf. destruct Hcase as [[-> ->]|[->| ->]]; auto.
    destruct Hst as [->|[_ Hne']]; [auto|contradiction].
  - change (join_fields (f :: g :: fs))
      with (csv_field f +:+ String comma (join_fields (g :: fs))).
    rewrite append_assoc.
    destruct (scan_field f st0 acc b
                (String comma (join_fields (g :: fs)) +:+ crlf +:+ rest) Hst0 Hf)
      as (st & b' & Hcase & ->).
    change (String comma (join_fields (g :: fs)) +:+ crlf +:+ rest)
      with (String comma (join_fields (g :: fs) +:+ crlf +:+ rest)).
    rewrite scan_comma
      by (destruct Hcase as [[_ ->]|[->| ->]]; destruct Hst0; subst; auto).
    rewrite IH; [|discriminate|auto|exact Hfs].
    rewrite <- app_assoc. reflexivity.
Qed.

(** A written line reads back as its record, whatever follows it. *)
Lemma scan_csv_line (fs : list string) (rest : string) :
  forallb fits fs = true ->
  scan (csv_line fs +:+ rest) false reader_init
  = res_map (cons fs) (scan rest false reader_init).
Proof.
  intros Hfit.
  destruct fs as [|f fs]; [reflexivity|].
  destruct fs as [|g fs].
  - destruct f as [|c f]; [reflexivity|].
    change (csv_line [String c f]) with (join_fields [String c f] +:+ crlf).
    rewrite append_assoc.
    apply (scan_join [String c f] START_RECORD []); [discriminate| |exact Hfit].
    right. split; [reflexivity|discriminate].
  - assert (Hline : csv_line (f :: g :: fs)
                    = join_fields (f :: g :: fs) +:+ crlf)
      by (destruct f; reflexivity).
    rewrite Hline, append_assoc.
    apply (scan_join (f :: g :: fs) START_RECORD []); [discriminate| |exact Hfit].
    right. split; [reflexivity|discriminate].
Qed.

(** A written table reads back as it was written. *)
Lemma scan_csv_text (table : list (list string)) (rest : string) :
  forallb (forallb fits) table = true ->
  scan (csv_text table +:+ rest) false reader_init
  = res_map (app table) (scan rest false reader_init).
Proof.
  induction table as [|row table IH]; intros Hfit; simpl.
  - destruct (scan rest false reader_init); reflexivity.
  - simpl in Hfit. apply andb_prop in Hfit as [Hrow Htable].
    rewrite append_assoc, scan_csv_line by exact Hrow.
    rewrite IH by exact Htable.
    destruct (scan rest false reader_init); reflexivity.
Qed.

Lemma csv_rows_csv_text (table : list (list string)) :
  forallb (forallb fits) table = true ->
  csv_rows (csv_text table) = Ok table.
Proof.
  intros Hfit. rewrite csv_rows_scan.
  rewrite <- (append_nil_r (csv_text table)).
  rewrite scan_csv_text by exact Hfit.
  change (scan "" false reader_init) with (@Ok (list (list string)) []).
  simpl. rewrite app_nil_r. reflexivity.
Qed.

Lemma csv_text_app (t1 t2 : list (list string)) :
  csv_text (t1 ++ t2) = csv_text t1 +:+ csv_text t2.
Proof.
  induction t1 as [|row t1 IH]; simpl; [reflexivity|].
  rewrite IH, append_assoc. reflexivity.
Qed.

(** ** Append, then read *)

Lemma known_keys_spec (names : list string) (d : pydict) :
  known_keys names d = true
  <-> forall k v, d !! k = Some v -> known_key names k = true.
Proof.
  unfold known_keys. rewrite forallb_forall. split.
  - intros Hall k v Hk. apply (Hall (k, v)).
    apply list_elem_of_In, elem_of_map_to_list. exact Hk.
  - intros Hall [k v] Hin. simpl.
    apply list_elem_of_In, elem_of_map_to_list in Hin. eapply Hall. exact Hin.
Qed.

Lemma known_keys_memo (d : pydict) (v : pyval) :
  known_keys fieldnames d = true ->
  known_keys fieldnames (<[Some "memo" := v]> d) = true.
Proof.
  rewrite !known_keys_spec. intros Hall k v' Hk.
  destruct (decide (k = Some "memo")) as [->|Hne]; [reflexivity|].
  rewrite lookup_insert_ne in Hk by congruence. eapply Hall. exact Hk.
Qed.

Lemma dict_get_memo_default (d : pydict) (k : string) :
  d !! Some "memo" = None ->
  dict_get (<[Some "memo" := PStr ""]> d) k (PStr "") = dict_get d k (PStr "").
Proof.
  intros Hm. unfold dict_get.
  destruct (decide (k = "memo")) as [->|Hne].
  - rewrite lookup_insert_eq, Hm. reflexivity.
  - rewrite lookup_insert_ne by congruence. reflexivity.
Qed.

Section AppendRead.
Context `{PyRuntime}.

(** What [append_history_row] does on a row the writer accepts. *)
Lemma cells_of_memo_default (r : pydict) :
  r !! Some "memo" = None ->
  cells_of (<[Some "memo" := PStr ""]> r) = cells_of r.
Proof.
  intros Hm. unfold cells_of. f_equal. apply map_ext. intros k.
  apply dict_get_memo_default. exact Hm.
Qed.

Lemma append_history_row_run (row : nat) (w : world) (r : pydict) :
  heap w !! row = Some r ->
  known_keys fieldnames r = true ->
  append_history_row row w
  = let old := match history_file w with
               | None => csv_line fieldnames
               | Some old => old
               end in
    let h := if dict_has r "memo" then heap w
             else <[row := <[Some "memo" := PStr ""]> r]> (heap w) in
    match cells_of r with
    | Ok cells =>
        (Ok tt, World true (settings_file w) (Some (old +:+ csv_line cells)) h)
    | Raise e => (Raise e, World true (settings_file w) (Some old) h)
    end.
Proof.
  intros Hrow Hkeys.
  destruct w as [dd sf hf hp]. simpl in Hrow.
  assert (Hnone : dict_has r "memo" = false -> r !! Some "memo" = None).
  { unfold dict_has. destruct (r !! Some "memo"); [discriminate|reflexivity]. }
  unfold append_history_row, ensure_data_dir, write_history, set_history,
    deref, store.
  destruct hf as [old|]; simpl; rewrite Hrow;
    destruct (dict_has r "memo") eqn:Hm; simpl;
    rewrite ?Hrow, ?lookup_insert_eq; unfold dict_to_list;
    rewrite ?(known_keys_memo r _ Hkeys), ?Hkeys;
    try (change (csv_cells
                   (map (fun k => dict_get (<[Some "memo" := PStr ""]> r) k
                                    (PStr "")) fieldnames))
           with (cells_of (<[Some "memo" := PStr ""]> r));
         rewrite (cells_of_memo_default r (Hnone eq_refl)));
    try (change (csv_cells (map (fun k => dict_get r k (PStr "")) fieldnames))
           with (cells_of r));
    destruct (cells_of r); simpl; rewrite ?append_nil_r; reflexivity.
Qed.

Lemma append_history_row_ok (row : nat) (w : world) (r : pydict)
  (cells : list string) :
  heap w !! row = Some r ->
  known_keys fieldnames r = true ->
  cells_of r = Ok cells ->
  append_history_row row w
  = (Ok tt,
     World true (settings_file w)
       (Some (match history_file w with
              | None => csv_line fieldnames
              | Some old => old
              end +:+ csv_line cells))
       (if dict_has r "memo" then heap w
        else <[row := <[Some "memo" := PStr ""]> r]> (heap w))).
Proof.
  intros Hrow Hkeys Hcells.
  rewrite (append_history_row_run row w r Hrow Hkeys), Hcells. reflexivity.
Qed.

(** The converted cells, one for each field name. *)
Lemma csv_cells_spec (values : list pyval) (cells : list string) :
  csv_cells values = Ok cells <-> Forall2 (fun v c => csv_cell v = Ok c) values cells.
Proof.
  revert cells. induction values as [|v values IH]; intros cells; simpl.
  - split.
    + intros Heq. injection Heq as <-. constructor.
    + intros Hall. inversion Hall. reflexivity.
  - destruct (csv_cell v) as [c|e] eqn:Hv.
    + destruct (csv_cells values) as [cs|e] eqn:Hvs.
      * split.
        -- intros Heq. injection Heq as <-. constructor; [exact Hv|].
           apply IH. reflexivity.
        -- intros Hall. inversion Hall as [|? c' ? cs' Hc Hcs]; subst.
           apply IH in Hcs. congruence.
      * split; [discriminate|].
        intros Hall. inversion Hall as [|? c' ? cs' Hc Hcs]; subst.
        apply IH in Hcs. discriminate.
    + split; [discriminate|].
      intros Hall. inversion Hall; subst. congruence.
Qed.

Lemma cells_of_six (r : pydict) (cells : list string) :
  cells_of r = Ok cells ->
  exists c1 c2 c3 c4 c5 c6,
    cells = [c1; c2; c3; c4; c5; c6]
    /\ csv_cell (dict_get r "datetime" (PStr "")) = Ok c1
    /\ csv_cell (dict_get r "count" (PStr "")) = Ok c2
    /\ csv_cell (dict_get r "subtotal" (PStr "")) = Ok c3
    /\ csv_cell (dict_get r "tax_rate" (PStr "")) = Ok c4
    /\ csv_cell (dict_get r "total" (PStr "")) = Ok c5
    /\ csv_cell (dict_get r "memo" (PStr "")) = Ok c6.
Proof.
  unfold cells_of. rewrite csv_cells_spec. simpl. intros Hall.
  repeat match goal with
         | Hall : Forall2 _ (_ :: _) _ |- _ =>
             inversion Hall; subst; clear Hall
         | Hall : Forall2 _ [] _ |- _ => inversion Hall; subst; clear Hall
         end.
  do 6 eexists. repeat split; eassumption.
Qed.

(** The written row under the field names is the row as text. *)
Lemma dict_of_written_row (r : pydict) (cells : list string) :
  cells_of r = Ok cells ->
  memo_repair (dict_of_row fieldnames cells) = row_as_text r.
Proof.
  intros Hcells. unfold row_as_text. rewrite Hcells.
  destruct (cells_of_six r cells Hcells) as (c1 & c2 & c3 & c4 & c5 & c6 & -> & _).
  reflexivity.
Qed.

End AppendRead.

Lemma all_text_spec (d : pydict) :
  all_text d = true <-> forall k v, d !! k = Some v -> is_text v = true.
Proof.
  unfold all_text. rewrite forallb_forall. split.
  - intros Hall k v Hk. apply (Hall (k, v)).
    apply list_elem_of_In, elem_of_map_to_list. exact Hk.
  - intros Hall [k v] Hin. simpl.
    apply list_elem_of_In, elem_of_map_to_list in Hin. eapply Hall. exact Hin.
Qed.

Section RowAsText.
Context `{PyRuntime}.

Lemma row_as_text_lookup (r : pydict) (cells : list string) (k : string) :
  cells_of r = Ok cells ->
  In k fieldnames ->
  exists c,
    csv_cell (dict_get r k (PStr "")) = Ok c
    /\ row_as_text r !! Some k = Some (PStr c).
Proof.
  intros Hcells Hin. unfold row_as_text. rewrite Hcells.
  destruct (cells_of_six r cells Hcells)
    as (c1 & c2 & c3 & c4 & c5 & c6 & -> & H1 & H2 & H3 & H4 & H5 & H6).
  simpl in Hin.
  repeat (destruct Hin as [<-|Hin];
          [eexists; split; [eassumption|reflexivity]|]).
  contradiction.
Qed.

Lemma row_as_text_other (r : pydict) (k : option string) :
  known_key fieldnames k = false -> row_as_text r !! k = None.
Proof.
  intros Hk. unfold row_as_text.
  destruct (cells_of r) as [cells|e] eqn:Hcells; [|apply lookup_empty].
  destruct (cells_of_six r cells Hcells)
    as (c1 & c2 & c3 & c4 & c5 & c6 & -> & _).
  unfold text_row. simpl.
  destruct k as [k|].
  - simpl in Hk. repeat (apply orb_false_elim in Hk as [? Hk]).
    repeat match goal with
           | E : String.eqb _ _ = false |- _ => apply String.eqb_neq in E
           end.
    rewrite !lookup_insert_ne by congruence. apply lookup_empty.
  - rewrite !lookup_insert_ne by congruence. apply lookup_empty.
Qed.

(** A row of text cells that has its fields is its own text. *)
Lemma row_as_text_id (r : pydict) (cells : list string) :
  cells_of r = Ok cells ->
  known_keys fieldnames r = true ->
  all_text r = true ->
  has_fields r = true ->
  row_as_text r = memo_repair r.
Proof.
  intros Hcells Hkeys Htext Hfields.
  rewrite known_keys_spec in Hkeys. rewrite all_text_spec in Htext.
  unfold has_fields in Hfields. rewrite forallb_forall in Hfields.
  assert (Hcell : forall k v c, r !! Some k = Some v ->
                    csv_cell (dict_get r k (PStr "")) = Ok c -> PStr c = v).
  { intros k v c Hk. unfold dict_get. rewrite Hk.
    specialize (Htext _ _ Hk). destruct v; try discriminate.
    simpl. congruence. }
  apply map_eq. intros k.
  destruct (known_key fieldnames k) eqn:Hknown.
  - destruct k as [k|]; [|discriminate].
    change (existsb (String.eqb k) fieldnames = true) in Hknown.
    assert (Hin : In k fieldnames).
    { apply existsb_exists in Hknown as (x & Hx & Heq).
      apply String.eqb_eq in Heq. subst x. exact Hx. }
    destruct (row_as_text_lookup r cells k Hcells Hin) as (c & Hc & ->).
    unfold memo_repair.
    specialize (Hfields k Hin). unfold dict_has in *.
    destruct (r !! Some "memo") as [m|] eqn:Hm.
    + destruct (r !! Some k) as [v|] eqn:Hk.
      * rewrite (Hcell k v c Hk Hc). reflexivity.
      * simpl in Hfields. apply String.eqb_eq in Hfields. congruence.
    + destruct (decide (k = "memo")) as [->|Hne].
      * rewrite lookup_insert_eq. unfold dict_get in Hc. rewrite Hm in Hc.
        simpl in Hc. congruence.
      * rewrite lookup_insert_ne by congruence.
        destruct (r !! Some k) as [v|] eqn:Hk.
        -- rewrite (Hcell k v c Hk Hc). reflexivity.
        -- simpl in Hfields. apply String.eqb_eq in Hfields. contradiction.
  - rewrite (row_as_text_other r k Hknown). symmetry.
    assert (Hr : r !! k = None).
    { destruct (r !! k) as [v|] eqn:Hk; [|reflexivity].
      rewrite (Hkeys k v Hk) in Hknown. discriminate. }
    unfold memo_repair. destruct (dict_has r "memo"); [exact Hr|].
    rewrite lookup_insert_ne; [exact Hr|].
    intros <-. discriminate Hknown.
Qed.

End RowAsText.

Section AppendThenRead.
Context `{PyRuntime}.

#[local] Arguments csv_line : simpl never.
#[local] Arguments csv_text : simpl never.
#[local] Arguments cells_of : simpl never.
#[local] Arguments row_as_text : simpl never.

(** Reading a ledger the writer made: the first record names the fields
    of the others. *)
Lemma read_written (w : world) (names : list string)
  (rows : list (list string)) :
  history_file w = Some (csv_text (names :: rows)) ->
  forallb (forallb fits) (names :: rows) = true ->
  read_history_rows w
  = Ok (map memo_repair
          (map (dict_of_row names)
             (filter (fun row => is_blank row = false) rows))).
Proof.
  intros Hfile Hfit. unfold read_history_rows. rewrite Hfile.
  rewrite csv_rows_csv_text by exact Hfit. reflexivity.
Qed.

Lemma csv_text_snoc (table : list (list string)) (row : list string) :
  csv_text table +:+ csv_line row = csv_text (table ++ [row]).
Proof.
  rewrite csv_text_app. f_equal.
  change (csv_text [row]) with (csv_line row +:+ "").
  symmetry. apply append_nil_r.
Qed.

Lemma csv_text_header :
  csv_line fieldnames = csv_text [fieldnames].
Proof.
  change (csv_text [fieldnames]) with (csv_line fieldnames +:+ "").
  symmetry. apply append_nil_r.
Qed.

(** Reading after one more row was written. *)
Lemma read_after_append (w : world) (r : pydict) (cells : list string)
  (rows : list (list string)) :
  cells_of r = Ok cells ->
  history_file w
  = Some (csv_text (fieldnames :: rows) +:+ csv_line cells) ->
  forallb (forallb fits) rows = true ->
  forallb fits cells = true ->
  read_history_rows w
  = Ok (map memo_repair
          (map (dict_of_row fieldnames)
             (filter (fun row => is_blank row = false) rows))
        ++ [row_as_text r])%list.
Proof.
  intros Hr Hfile Hrows Hcells.
  rewrite csv_text_snoc in Hfile.
  change ((fieldnames :: rows) ++ [cells])%list
    with (fieldnames :: (rows ++ [cells])%list) in Hfile.
  rewrite (read_written w _ _ Hfile).
  - rewrite filter_app, !map_app. f_equal.
    rewrite <- (dict_of_written_row r cells Hr).
    destruct (cells_of_six r cells Hr) as (c1 & c2 & c3 & c4 & c5 & c6 & -> & _).
    reflexivity.
  - change (forallb fits fieldnames
            && forallb (forallb fits) (rows ++ [cells])%list = true).
    rewrite forallb_app, Hrows.
    change (forallb (forallb fits) [cells])
      with (forallb fits cells && true).
    rewrite Hcells. reflexivity.
Qed.

End AppendThenRead.

Section AppendClaim.
Context `{PyRuntime}.

#[local] Arguments csv_line : simpl never.
#[local] Arguments csv_text : simpl never.
#[local] Arguments cells_of : simpl never.
#[local] Arguments row_as_text : simpl never.

(** C1, as the code has it: on a ledger that is absent or was written by
    the CSV writer under the six field names, and for a row with no key
    outside them whose values the writer can all convert to text,
    [append_history_row] writes the header first exactly when the file was
    absent, then the row; reading afterwards gives the rows read before
    followed by the row as text, each cell the text the writer put there
    (the empty text for a missing cell such as the memo). That last
    element is the row itself with the memo defaulted when all its values
    are text and its other five fields are there. *)
Theorem append_then_read (row : nat) (w : world) (r : pydict)
  (cells : list string) (old_rows : list (list string)) :
  heap w !! row = Some r ->
  known_keys fieldnames r = true ->
  cells_of r = Ok cells ->
  forallb fits cells = true ->
  forallb (forallb fits) old_rows = true ->
  history_file w = None
  \/ history_file w = Some (csv_text (fieldnames :: old_rows)) ->
  let w' := snd (append_history_row row w) in
  fst (append_history_row row w) = Ok tt
  /\ history_file w'
     = Some (match history_file w with
             | None => csv_line fieldnames
             | Some old => old
             end +:+ csv_line cells)
  /\ (exists earlier,
        read_history_rows w = Ok earlier
        /\ read_history_rows w' = Ok (earlier ++ [row_as_text r])%list)
  /\ (forall k, In k fieldnames ->
        exists c,
          csv_cell (dict_get r k (PStr "")) = Ok c
          /\ row_as_text r !! Some k = Some (PStr c))
  /\ (forall k, known_key fieldnames k = false -> row_as_text r !! k = None)
  /\ (all_text r = true -> has_fields r = true ->
      row_as_text r = memo_repair r).
Proof.
  intros Hrow Hkeys Hr Hcells Hold Hfile w'. unfold w'.
  rewrite (append_history_row_ok row w r cells Hrow Hkeys Hr).
  cbn [fst snd history_file].
  split; [reflexivity|]. split; [reflexivity|].
  split; [|split; [|split]].
  - destruct Hfile as [Hnone | Hsome].
    + exists []. split; [apply read_history_absent; exact Hnone|].
      rewrite (read_after_append _ r cells []);
        [reflexivity|exact Hr| |reflexivity|exact Hcells].
      cbn [history_file]. rewrite Hnone, csv_text_header. reflexivity.
    + exists (map memo_repair
                (map (dict_of_row fieldnames)
                   (filter (fun row => is_blank row = false) old_rows))).
      split.
      * apply read_written; [exact Hsome|].
        change (forallb fits fieldnames
                && forallb (forallb fits) old_rows = true).
        rewrite Hold. reflexivity.
      * apply (read_after_append _ r cells); [exact Hr| |exact Hold|exact Hcells].
        cbn [history_file]. rewrite Hsome. reflexivity.
  - intros k. apply (row_as_text_lookup r cells k Hr).
  - apply row_as_text_other.
  - apply (row_as_text_id r cells Hr Hkeys).
Qed.

End AppendClaim.

Lemma append_then_read_witness :
  let H := sample_runtime in
  let r : pydict :=
    <[Some "datetime" := PStr "2024-01-31 23:10:05"]>
      (<[Some "count" := PInt 3]>
         (<[Some "subtotal" := PStr "100.0"]>
            (<[Some "tax_rate" := PStr "0.1"]>
               {[ Some "total" := PStr "110.0" ]}))) in
  let old := ["2024-01-30 09:00:00"; "1"; "50.0"; "0.1"; "55.0"; "a, b"] in
  let w := World true None (Some (csv_text [fieldnames; old])) {[ 0%nat := r ]} in
  let cells := ["2024-01-31 23:10:05"; "3"; "100.0"; "0.1"; "110.0"; ""] in
  fst (append_history_row 0%nat w) = Ok tt
  /\ history_file (snd (append_history_row 0%nat w))
     = Some (csv_text [fieldnames; old] +:+ csv_line cells)
  /\ (exists earlier,
        read_history_rows w = Ok earlier
        /\ read_history_rows (snd (append_history_row 0%nat w))
           = Ok (earlier ++ [row_as_text r])%list)
  /\ row_as_text r !! Some "count" = Some (PStr "3")
  /\ row_as_text r !! Some "memo" = Some (PStr "").
Proof.
  intros H r old w cells.
  destruct (@append_then_read H 0%nat w r cells [old])
    as (Hok & Hfile & Hread & Hcell & _).
  - reflexivity.
  - vm_compute. reflexivity.
  - vm_compute. reflexivity.
  - vm_compute. reflexivity.
  - vm_compute. reflexivity.
  - right. reflexivity.
  - split; [exact Hok|]. split; [exact Hfile|]. split; [exact Hread|].
    split.
    + destruct (Hcell "count") as (c & Hc & Hk);
        [right; left; reflexivity|].
      vm_compute in Hc. injection Hc as <-. exact Hk.
    + destruct (Hcell "memo") as (c & Hc & Hk);
        [do 5 right; left; reflexivity|].
      vm_compute in Hc. injection Hc as <-. exact Hk.
Defined.

(** C1 as stated fails. A row holding the count as an integer reads back
    with the count as text, so the last element differs from the row; and
    on a ledger file that exists but is empty no header is written, the
    row itself is taken for the header and nothing is read back. *)
Lemma append_then_read_not_equal :
  let H := sample_runtime in
  let r : pydict :=
    <[Some "datetime" := PStr "2024-01-31 23:10:05"]>
      (<[Some "count" := PInt 3]>
         (<[Some "subtotal" := PStr "100.0"]>
            (<[Some "tax_rate" := PStr "0.1"]>
               (<[Some "total" := PStr "110.0"]>
                  {[ Some "memo" := PStr "market" ]})))) in
  let r' : pydict := <[Some "count" := PStr "3"]> r in
  let fresh := World false None None {[ 0%nat := r ]} in
  let empty := World true None (Some "") {[ 0%nat := r ]} in
  (read_history_rows (snd (append_history_row 0%nat fresh)) = Ok [r']
   /\ r' <> r)
  /\ read_history_rows (snd (append_history_row 0%nat empty)) = Ok [].
Proof.
  intros H r r' fresh empty. split; [split|].
  - vm_compute. reflexivity.
  - intros Heq.
    apply (f_equal (fun d : pydict => d !! Some "count")) in Heq.
    vm_compute in Heq. discriminate Heq.
  - vm_compute. reflexivity.
Qed.

(** * Further properties of the code *)

(** ** The price parser and the cart *)

(** [parse_price] never returns a value below zero. *)
Lemma parse_price_not_below_zero (text : option string) (v : spec_float) :
  parse_price text = Ok (Some v) -> PyFloat.ltb v PyFloat.zero = false.
Proof.
  destruct text as [text|]; simpl; [|discriminate].
  destruct (String.eqb _ _); [discriminate|].
  destruct (PyFloat.of_string _) as [value|e]; [|discriminate].
  destruct (PyFloat.ltb value PyFloat.zero) eqn:E; [discriminate|].
  intros Heq. injection Heq as <-. exact E.
Qed.

Lemma cart_undo_snoc (prices : list spec_float) (v : spec_float) :
  cart_undo (prices ++ [v]) = (Some v, prices).
Proof.
  unfold cart_undo. rewrite rev_app_distr. simpl.
  rewrite rev_involutive. reflexivity.
Qed.

Lemma cart_undo_sublist (prices : list spec_float) :
  exists taken, prices = (snd (cart_undo prices) ++ taken)%list.
Proof.
  unfold cart_undo. destruct (rev prices) as [|x before] eqn:E; simpl.
  - exists []. rewrite app_nil_r. reflexivity.
  - exists [x]. rewrite <- (rev_involutive prices), E. reflexivity.
Qed.

(** X1: Whatever the user does on the calculation page, starting from the
    empty cart: no action fails, and the cart never holds a price below
    zero. *)
Theorem cart_never_below_zero (actions : list cart_action) :
  exists prices,
    cart_run actions [] = Ok prices
    /\ Forall (fun v => PyFloat.ltb v PyFloat.zero = false) prices.
Proof.
  assert (Hgen : forall prices0,
    Forall (fun v => PyFloat.ltb v PyFloat.zero = false) prices0 ->
    exists prices,
      cart_run actions prices0 = Ok prices
      /\ Forall (fun v => PyFloat.ltb v PyFloat.zero = false) prices).
  { induction actions as [|a actions IH]; intros prices0 Hinv; simpl.
    - exists prices0. split; [reflexivity|exact Hinv].
    - destruct a as [price_text| |]; simpl.
      + unfold cart_add.
        destruct (parse_price_no_raise (Some price_text)) as [o Ho].
        rewrite Ho. destruct o as [value|]; [|apply IH; exact Hinv].
        apply IH. apply Forall_app. split; [exact Hinv|].
        constructor; [|constructor].
        exact (parse_price_not_below_zero _ _ Ho).
      + apply IH. destruct (cart_undo_sublist prices0) as [taken Heq].
        rewrite Heq in Hinv. apply Forall_app in Hinv as [Hinv _]. exact Hinv.
      + apply IH. constructor. }
  apply Hgen. constructor.
Qed.

(** X2: Undo takes back the last price added: after an "add" of text that
    parses to [v], "undo" reports [v] and leaves the cart as it was. *)
Theorem cart_undo_add (price_text : string) (v : spec_float)
  (prices : list spec_float) :
  parse_price (Some price_text) = Ok (Some v) ->
  exists prices',
    cart_add price_text prices = Ok prices'
    /\ cart_undo prices' = (Some v, prices).
Proof.
  intros Hv. exists (prices ++ [v])%list. unfold cart_add. rewrite Hv.
  split; [reflexivity|apply cart_undo_snoc].
Qed.

Lemma cart_undo_add_witness :
  let v := PyFloat.of_decimal false 120 0 in
  let w := PyFloat.of_decimal false 9805 (-1) in
  exists prices',
    cart_add "120" [w] = Ok prices' /\ cart_undo prices' = (Some v, [w]).
Proof.
  intros v w. apply (cart_undo_add "120" v [w]). vm_compute. reflexivity.
Defined.

(** Undo on the empty cart takes nothing and leaves it empty. *)
Lemma cart_undo_empty : cart_undo [] = (None, []).
Proof. reflexivity. Qed.

(** *** Blanks around the text *)

Lemma lstrip_by_spaces (sp : ascii -> bool) (a s : string) :
  forallb sp (list_ascii_of_string a) = true ->
  PyStr.lstrip_by sp (a +:+ s) = PyStr.lstrip_by sp s.
Proof.
  induction a as [|c a IH]; simpl; intros Ha; [reflexivity|].
  apply andb_prop in Ha as [Hc Ha]. rewrite Hc. apply IH. exact Ha.
Qed.

Lemma rstrip_by_all_space (sp : ascii -> bool) (b : string) :
  forallb sp (list_ascii_of_string b) = true -> PyStr.rstrip_by sp b = "".
Proof.
  induction b as [|c b IH]; simpl; intros Hb; [reflexivity|].
  apply andb_prop in Hb as [Hc Hb]. rewrite (IH Hb), Hc. reflexivity.
Qed.

Lemma rstrip_by_spaces (sp : ascii -> bool) (s b : string) :
  forallb sp (list_ascii_of_string b) = true ->
  PyStr.rstrip_by sp (s +:+ b) = PyStr.rstrip_by sp s.
Proof.
  intros Hb. induction s as [|c s IH]; simpl.
  - apply rstrip_by_all_space. exact Hb.
  - rewrite IH. reflexivity.
Qed.

Lemma lstrip_by_all_space (sp : ascii -> bool) (b : string) :
  forallb sp (list_ascii_of_string b) = true -> PyStr.lstrip_by sp b = "".
Proof.
  induction b as [|c b IH]; simpl; intros Hb; [reflexivity|].
  apply andb_prop in Hb as [Hc Hb]. rewrite Hc. apply IH. exact Hb.
Qed.

Lemma lstrip_by_app (sp : ascii -> bool) (s b : string) :
  PyStr.lstrip_by sp (s +:+ b)
  = match PyStr.lstrip_by sp s with
    | EmptyString => PyStr.lstrip_by sp b
    | t => t +:+ b
    end.
Proof.
  induction s as [|c s IH]; simpl; [reflexivity|].
  destruct (sp c); [exact IH|reflexivity].
Qed.

Lemma strip_by_spaces (sp : ascii -> bool) (a s b : string) :
  forallb sp (list_ascii_of_string a) = true ->
  forallb sp (list_ascii_of_string b) = true ->
  PyStr.strip_by sp (a +:+ s +:+ b) = PyStr.strip_by sp s.
Proof.
  intros Ha Hb. unfold PyStr.strip_by.
  rewrite lstrip_by_spaces by exact Ha. rewrite lstrip_by_app.
  destruct (PyStr.lstrip_by sp s) as [|c t] eqn:E.
  - rewrite lstrip_by_all_space by exact Hb. reflexivity.
  - apply rstrip_by_spaces. exact Hb.
Qed.

(** X3: Blanks before and after the text never change what [parse_price]
    returns. *)
Theorem parse_price_blanks (a s b : string) :
  all_space a = true -> all_space b = true ->
  parse_price (Some (a +:+ s +:+ b)) = parse_price (Some s).
Proof.
  intros Ha Hb. unfold parse_price, PyStr.strip.
  rewrite (strip_by_spaces PyStr.isspace a s b Ha Hb). reflexivity.
Qed.

Lemma parse_price_blanks_witness :
  parse_price (Some ("  " +:+ "1,200" +:+ String "009" " "))
  = parse_price (Some "1,200").
Proof. apply parse_price_blanks; reflexivity. Defined.

(** *** Unsigned numerals *)

(** What holds of a digit and of the point. *)
Lemma num_char_facts (c : ascii) :
  num_char c = true ->
  PyStr.isspace c = false /\ PyFloat.float_space c = false
  /\ Ascii.eqb c "," = false /\ Ascii.eqb c "_" = false
  /\ PyStr.lower_char c = c
  /\ Ascii.eqb c "i" = false /\ Ascii.eqb c "n" = false
  /\ forall s, PyFloat.take_sign (String c s) = (false, String c s).
Proof.
  destruct c as [[] [] [] [] [] [] [] []]; intros Hc;
    try (vm_compute in Hc; discriminate Hc);
    repeat split; reflexivity.
Qed.

Lemma digit_is_num_char (s : string) :
  all_digits s = true -> forallb num_char (list_ascii_of_string s) = true.
Proof.
  unfold all_digits. induction s as [|c s IH]; simpl; [reflexivity|].
  intros H. apply andb_prop in H as [Hc Hs].
  rewrite (IH Hs), andb_true_r. unfold num_char. rewrite Hc. reflexivity.
Qed.

Lemma num_chars_app (a b : string) :
  forallb num_char (list_ascii_of_string a) = true ->
  forallb num_char (list_ascii_of_string b) = true ->
  forallb num_char (list_ascii_of_string (a +:+ b)) = true.
Proof.
  induction a as [|c a IH]; simpl; intros Ha Hb; [exact Hb|].
  apply andb_prop in Ha as [Hc Ha]. rewrite Hc. apply IH; assumption.
Qed.

Lemma lstrip_by_none (sp : ascii -> bool) (s : string) :
  forallb (fun c => negb (sp c)) (list_ascii_of_string s) = true ->
  PyStr.lstrip_by sp s = s.
Proof.
  destruct s as [|c s]; simpl; [reflexivity|]. intros H.
  apply andb_prop in H as [Hc _]. apply negb_true_iff in Hc.
  rewrite Hc. reflexivity.
Qed.

Lemma rstrip_by_none (sp : ascii -> bool) (s : string) :
  forallb (fun c => negb (sp c)) (list_ascii_of_string s) = true ->
  PyStr.rstrip_by sp s = s.
Proof.
  induction s as [|c s IH]; simpl; [reflexivity|]. intros H.
  apply andb_prop in H as [Hc Hs]. apply negb_true_iff in Hc.
  rewrite (IH Hs), Hc. destruct s; reflexivity.
Qed.

Lemma forallb_num_char (P : ascii -> bool) (s : string) :
  (forall c, num_char c = true -> P c = true) ->
  forallb num_char (list_ascii_of_string s) = true ->
  forallb P (list_ascii_of_string s) = true.
Proof.
  intros HP. induction s as [|c s IH]; simpl; [reflexivity|]. intros H.
  apply andb_prop in H as [Hc Hs]. rewrite (HP c Hc), (IH Hs). reflexivity.
Qed.

Lemma strip_by_num (s : string) :
  forallb num_char (list_ascii_of_string s) = true ->
  PyStr.strip s = s /\ PyStr.strip_by PyFloat.float_space s = s.
Proof.
  intros Hs. unfold PyStr.strip, PyStr.strip_by. split.
  - assert (H : forallb (fun c => negb (PyStr.isspace c))
                  (list_ascii_of_string s) = true).
    { apply forallb_num_char; [|exact Hs]. intros c Hc.
      apply num_char_facts in Hc as (-> & _). reflexivity. }
    rewrite (lstrip_by_none _ s H). apply rstrip_by_none. exact H.
  - assert (H : forallb (fun c => negb (PyFloat.float_space c))
                  (list_ascii_of_string s) = true).
    { apply forallb_num_char; [|exact Hs]. intros c Hc.
      apply num_char_facts in Hc as (_ & -> & _). reflexivity. }
    rewrite (lstrip_by_none _ s H). apply rstrip_by_none. exact H.
Qed.

Lemma replace_char_num (s : string) :
  forallb num_char (list_ascii_of_string s) = true ->
  PyStr.replace_char "," "" s = s /\ PyStr.replace_char "_" "" s = s.
Proof.
  induction s as [|c s IH]; simpl; [split; reflexivity|]. intros H.
  apply andb_prop in H as [Hc Hs]. destruct (IH Hs) as [-> ->].
  apply num_char_facts in Hc as (_ & _ & -> & -> & _). split; reflexivity.
Qed.

Lemma underscores_ok_num (s : string) (prev : option ascii) :
  match prev with Some p => Ascii.eqb p "_" = false | None => True end ->
  forallb num_char (list_ascii_of_string s) = true ->
  PyFloat.underscores_ok prev s = true.
Proof.
  revert prev. induction s as [|c s IH]; intros prev Hprev H.
  - simpl. destruct prev as [p|]; [|reflexivity].
    destruct p as [[] [] [] [] [] [] [] []]; try reflexivity.
    discriminate Hprev.
  - simpl in H. apply andb_prop in H as [Hc Hs].
    assert (Hus : Ascii.eqb c "_" = false)
      by (apply num_char_facts in Hc as (_ & _ & _ & -> & _); reflexivity).
    cbn [PyFloat.underscores_ok]. rewrite Hus.
    rewrite (IH (Some c) Hus Hs), andb_true_r.
    destruct prev as [p|]; [|reflexivity].
    destruct p as [[] [] [] [] [] [] [] []]; try reflexivity.
    discriminate Hprev.
Qed.

Lemma lower_num (s : string) :
  forallb num_char (list_ascii_of_string s) = true -> PyStr.lower s = s.
Proof.
  induction s as [|c s IH]; simpl; [reflexivity|]. intros H.
  apply andb_prop in H as [Hc Hs]. rewrite (IH Hs).
  apply num_char_facts in Hc as (_ & _ & _ & _ & -> & _). reflexivity.
Qed.

Lemma span_digits_app (ip rest : string) :
  all_digits ip = true ->
  match rest with
  | String c _ => PyFloat.is_digit c = false
  | EmptyString => True
  end ->
  PyFloat.span_digits (ip +:+ rest) = (ip, rest).
Proof.
  unfold all_digits. induction ip as [|c ip IH]; simpl; intros Hip Hrest.
  - destruct rest as [|c rest]; [reflexivity|]. simpl. rewrite Hrest.
    reflexivity.
  - apply andb_prop in Hip as [Hc Hip]. rewrite Hc, (IH Hip Hrest).
    reflexivity.
Qed.

Lemma parse_decimal_point (ip fp : string) :
  all_digits ip = true -> all_digits fp = true ->
  ip <> "" \/ fp <> "" ->
  PyFloat.parse_decimal (ip +:+ "." +:+ fp)
  = Some (PyFloat.digits_value 0 (ip +:+ fp),
          (- Z.of_nat (String.length fp))%Z).
Proof.
  intros Hip Hfp Hne. unfold PyFloat.parse_decimal.
  rewrite (span_digits_app ip ("." +:+ fp) Hip) by reflexivity.
  change ("." +:+ fp) with (String "." fp). cbv iota.
  rewrite <- (append_nil_r fp) at 1.
  rewrite (span_digits_app fp "" Hfp I).
  destruct (Nat.eqb_spec (String.length ip + String.length fp) 0) as [E|_].
  - destruct ip, fp; simpl in E; try lia. destruct Hne; contradiction.
  - reflexivity.
Qed.

Lemma parse_decimal_digits (ip : string) :
  all_digits ip = true -> ip <> "" ->
  PyFloat.parse_decimal ip = Some (PyFloat.digits_value 0 ip, 0%Z).
Proof.
  intros Hip Hne. unfold PyFloat.parse_decimal.
  rewrite <- (append_nil_r ip) at 1.
  rewrite (span_digits_app ip "" Hip I). cbv iota.
  destruct (Nat.eqb_spec (String.length ip + String.length "") 0) as [E|_].
  - destruct ip; simpl in E; [contradiction|lia].
  - rewrite append_nil_r. reflexivity.
Qed.

(** A float made from an unsigned decimal is never below zero. *)
Lemma of_decimal_not_below_zero (m : N) (e : Z) :
  PyFloat.ltb (PyFloat.of_decimal false m e) PyFloat.zero = false.
Proof.
  assert (Haux : forall mx ex lx,
            SFltb (binary_round_aux PyFloat.prec PyFloat.emax false mx ex lx)
              PyFloat.zero = false).
  { intros mx ex lx. unfold binary_round_aux.
    destruct (shr_fexp _ _ _ _ _) as [mrs' e'].
    destruct (shr_fexp _ _ _ _ _) as [mrs'' e''].
    destruct (shr_m mrs''); [reflexivity| |reflexivity].
    destruct (Z.leb _ _); reflexivity. }
  unfold PyFloat.ltb, PyFloat.of_decimal.
  destruct m as [|p]; [reflexivity|].
  destruct e as [|k|k].
  - unfold binary_round. destruct (shl_align _ _ _). apply Haux.
  - unfold binary_round. destruct (shl_align _ _ _). apply Haux.
  - destruct (SFdiv_core_binary _ _ _ _ _ _) as [[q e'] l]. apply Haux.
Qed.

Lemma parse_price_num (s : string) (m : N) (e : Z) :
  forallb num_char (list_ascii_of_string s) = true ->
  PyFloat.parse_decimal s = Some (m, e) ->
  parse_price (Some s) = Ok (Some (PyFloat.of_decimal false m e)).
Proof.
  intros Hs Hdec.
  destruct s as [|c s']; [discriminate Hdec|].
  destruct (strip_by_num _ Hs) as [Hstrip Hfstrip].
  destruct (replace_char_num _ Hs) as [Hcomma Hus].
  assert (Hc : num_char c = true)
    by (simpl in Hs; apply andb_prop in Hs as [Hc _]; exact Hc).
  destruct (num_char_facts c Hc) as (_ & _ & _ & _ & _ & Hi & Hn & Hsign).
  unfold parse_price. rewrite Hstrip, Hcomma.
  change (String.eqb (String c s') "") with false. cbv iota.
  unfold PyFloat.of_string. rewrite Hfstrip.
  rewrite (underscores_ok_num _ None I Hs), Hus.
  unfold PyFloat.parse_float. rewrite Hsign, (lower_num _ Hs).
  assert (Hinf : String.eqb (String c s') "inf" = false)
    by (simpl; rewrite Hi; reflexivity).
  assert (Hinfinity : String.eqb (String c s') "infinity" = false)
    by (simpl; rewrite Hi; reflexivity).
  assert (Hnan : String.eqb (String c s') "nan" = false)
    by (simpl; rewrite Hn; reflexivity).
  rewrite Hinf, Hinfinity, Hnan, Hdec. simpl.
  rewrite of_decimal_not_below_zero. reflexivity.
Qed.

(** X4: Every unsigned decimal numeral is accepted: digits with a point among
    them, or digits alone, give the float nearest to the number they
    spell. *)
Theorem parse_price_numeral (ip fp : string) :
  all_digits ip = true -> all_digits fp = true ->
  ip <> "" \/ fp <> "" ->
  parse_price (Some (ip +:+ "." +:+ fp))
  = Ok (Some (PyFloat.of_decimal false (PyFloat.digits_value 0 (ip +:+ fp))
                (- Z.of_nat (String.length fp))))
  /\ (ip <> "" ->
      parse_price (Some ip)
      = Ok (Some (PyFloat.of_decimal false (PyFloat.digits_value 0 ip) 0))).
Proof.
  intros Hip Hfp Hne. split.
  - apply parse_price_num; [|apply parse_decimal_point; assumption].
    apply num_chars_app; [apply digit_is_num_char; exact Hip|].
    change ("." +:+ fp) with (String "." fp). simpl.
    apply digit_is_num_char. exact Hfp.
  - intros Hip'. apply parse_price_num; [|apply parse_decimal_digits; assumption].
    apply digit_is_num_char. exact Hip.
Qed.

Lemma parse_price_numeral_witness :
  parse_price (Some "980.5")
  = Ok (Some (PyFloat.of_decimal false 9805 (-1)))
  /\ parse_price (Some "980")
     = Ok (Some (PyFloat.of_decimal false 980 0)).
Proof.
  destruct (parse_price_numeral "980" "5") as [Hpoint Hplain];
    [reflexivity|reflexivity|left; discriminate|].
  split; [exact Hpoint|]. apply Hplain. discriminate.
Defined.

(** ** The settings store, further *)

Section SettingsMore.
Context `{PyRuntime}.

(** X5: [load_settings] never writes: whatever the settings file holds, both
    files and every object are as before, only the data directory is
    made; and loading again gives the same result. *)
Theorem load_settings_writes_nothing (w : world) :
  snd (load_settings w)
  = World true (settings_file w) (history_file w) (heap w)
  /\ load_settings (snd (load_settings w)) = load_settings w.
Proof.
  rewrite load_settings_state. split; [reflexivity|].
  unfold load_settings. simpl.
  destruct (settings_file w) as [text|]; [|reflexivity].
  destruct (load_settings_try text); reflexivity.
Qed.

(** A save replaces the settings file as a whole and touches nothing
    else: the last of two saves wins, the ledger and the objects stay. *)
Theorem save_settings_overwrites (s1 s2 : gmap string json) (w : world) :
  save_settings s2 (save_settings s1 w) = save_settings s2 w
  /\ save_settings s2 w
     = World true (Some (json_dump (JDict s2))) (history_file w) (heap w).
Proof. split; reflexivity. Qed.

(** X6: Saving and loading, for every mapping the JSON writer and reader
    carry unchanged: the mapping comes back with [tax_rate = 0.10] filled
    in when it had no [tax_rate], so it comes back equal exactly when it
    had one. *)
Theorem save_then_load (s : gmap string json) (w : world) :
  json_load (json_dump (JDict s)) = Ok (JDict s) ->
  fst (load_settings (save_settings s w))
  = JDict (match s !! "tax_rate" with
           | Some _ => s
           | None => <["tax_rate" := JFloat tax_rate_default]> s
           end)
  /\ (fst (load_settings (save_settings s w)) = JDict s
      <-> is_Some (s !! "tax_rate")).
Proof.
  intros Hrt.
  assert (Hload :
    fst (load_settings (save_settings s w))
    = JDict (match s !! "tax_rate" with
             | Some _ => s
             | None => <["tax_rate" := JFloat tax_rate_default]> s
             end)).
  { unfold load_settings, load_settings_try, save_settings. simpl.
    rewrite Hrt. simpl. destruct (s !! "tax_rate"); reflexivity. }
  split; [exact Hload|]. rewrite Hload.
  destruct (s !! "tax_rate") as [v|] eqn:E.
  - split; [eauto|reflexivity].
  - split; [|intros [v Hv]; discriminate Hv].
    intros Heq. injection Heq as Heq.
    apply (f_equal (fun d : gmap string json => d !! "tax_rate")) in Heq.
    rewrite lookup_insert_eq, E in Heq. discriminate Heq.
Qed.

(** X7: The tax rate at start-up: 0.10 when the settings file is absent or
    malformed; for a stored mapping, the float of its [tax_rate], and 0.10
    when it has none. The conversion can fail: a stored [null] stops the
    program with a [TypeError]. *)
Theorem startup_tax_rate_cases :
  (forall w, settings_file w = None ->
     fst (startup_tax_rate w) = Ok tax_rate_default)
  /\ (forall w text e, settings_file w = Some text ->
        json_load text = Raise e ->
        fst (startup_tax_rate w) = Ok tax_rate_default)
  /\ (forall w text d, settings_file w = Some text ->
        json_load text = Ok (JDict d) ->
        fst (startup_tax_rate w)
        = match d !! "tax_rate" with
          | Some v => json_float v
          | None => Ok tax_rate_default
          end)
  /\ (forall w text d, settings_file w = Some text ->
        json_load text = Ok (JDict d) ->
        d !! "tax_rate" = Some JNull ->
        fst (startup_tax_rate w) = Raise TypeError).
Proof.
  assert (Hdict : forall w text d, settings_file w = Some text ->
            json_load text = Ok (JDict d) ->
            fst (startup_tax_rate w)
            = match d !! "tax_rate" with
              | Some v => json_float v
              | None => Ok tax_rate_default
              end).
  { intros w text d Hf Hl.
    unfold startup_tax_rate, load_settings, load_settings_try. simpl.
    rewrite Hf, Hl. simpl.
    destruct (d !! "tax_rate") as [v|] eqn:E; simpl.
    - rewrite E. destruct (json_float v); reflexivity.
    - rewrite lookup_insert_eq. reflexivity. }
  repeat split.
  - intros w Hf. unfold startup_tax_rate, load_settings. simpl.
    rewrite Hf. reflexivity.
  - intros w text e Hf Hl.
    unfold startup_tax_rate, load_settings, load_settings_try. simpl.
    rewrite Hf, Hl. reflexivity.
  - exact Hdict.
  - intros w text d Hf Hl Hnull. rewrite (Hdict w text d Hf Hl), Hnull.
    reflexivity.
Qed.

(** X8: The settings page: after "save" with the percentage [p] on the loaded
    mapping [d], the next start-up finds the rate [p / 100] and the next
    load gives [d] with [tax_rate] replaced and every other key kept, for
    every mapping the JSON writer and reader carry unchanged. *)
Theorem save_tax_rate_then_startup (p : spec_float) (d : gmap string json)
  (w : world) :
  let rate := SFdiv PyFloat.prec PyFloat.emax p hundred in
  let d' := <["tax_rate" := JFloat rate]> d in
  json_load (json_dump (JDict d')) = Ok (JDict d') ->
  let w' := snd (save_tax_rate p (JDict d) w) in
  fst (save_tax_rate p (JDict d) w) = Ok tt
  /\ fst (load_settings w') = JDict d'
  /\ fst (startup_tax_rate w') = Ok rate
  /\ (forall k, k <> "tax_rate" -> d' !! k = d !! k)
  /\ history_file w' = history_file w.
Proof.
  intros rate d' Hrt w'. unfold w', save_tax_rate. fold rate. fold d'.
  cbn [fst snd].
  assert (Hk : d' !! "tax_rate" = Some (JFloat rate))
    by apply lookup_insert_eq.
  split; [reflexivity|]. split; [|split; [|split]].
  - unfold load_settings, load_settings_try, save_settings. simpl.
    rewrite Hrt. simpl. rewrite Hk. reflexivity.
  - unfold startup_tax_rate, load_settings, load_settings_try, save_settings.
    simpl. rewrite Hrt. simpl. rewrite Hk. simpl. rewrite Hk. reflexivity.
  - intros k Hne. apply lookup_insert_ne. congruence.
  - reflexivity.
Qed.

End SettingsMore.

Lemma save_then_load_witness :
  let H := sample_runtime in
  fst (load_settings (save_settings sample_settings (World false None None ∅)))
  = JDict sample_settings.
Proof.
  intros H.
  destruct (@save_then_load H sample_settings (World false None None ∅))
    as [Hload _]; [reflexivity|].
  exact Hload.
Defined.

Lemma startup_tax_rate_cases_witness :
  let H := sample_runtime in
  fst (startup_tax_rate (World false None None ∅)) = Ok tax_rate_default
  /\ fst (startup_tax_rate (World true (Some "{") None ∅)) = Ok tax_rate_default
  /\ fst (startup_tax_rate (World true (Some sample_text) None ∅))
     = Ok sample_tax_rate.
Proof.
  intros H.
  destruct (@startup_tax_rate_cases H) as (Habsent & Hbad & Hdict & _).
  split; [apply Habsent; reflexivity|].
  split; [apply (Hbad _ "{" ValueError); reflexivity|].
  apply (Hdict _ sample_text sample_settings); reflexivity.
Defined.

Lemma save_tax_rate_then_startup_witness :
  let H := sample_runtime in
  let eight := PyFloat.of_decimal false 8 0 in
  let w' := snd (save_tax_rate eight (JDict ∅) (World true None None ∅)) in
  fst (load_settings w') = JDict sample_settings
  /\ fst (startup_tax_rate w') = Ok sample_tax_rate.
Proof.
  intros H eight w'.
  destruct (@save_tax_rate_then_startup H eight ∅ (World true None None ∅))
    as (_ & Hload & Hstart & _); [reflexivity|].
  split; [exact Hload|exact Hstart].
Defined.

(** ** The ledger, further *)

Section LedgerMore.
Context `{PyRuntime}.

#[local] Arguments csv_line : simpl never.
#[local] Arguments csv_text : simpl never.
#[local] Arguments cells_of : simpl never.
#[local] Arguments row_as_text : simpl never.

(** X9: [append_history_row] only ever adds to the end of the ledger:
    whatever the row, and whether or not the writer accepts it, the file
    exists afterwards and begins with all it held before. *)
Theorem append_never_rewrites (row : nat) (w : world) :
  exists added,
    history_file (snd (append_history_row row w))
    = Some (match history_file w with
            | Some old => old
            | None => ""
            end +:+ added).
Proof.
  unfold append_history_row, ensure_data_dir, write_history, set_history,
    store.
  destruct w as [dd sf hf hp]. cbn [history_file data_dir settings_file heap].
  destruct hf as [old|]; cbn [history_file data_dir settings_file heap];
    match goal with
    | |- context [dict_has ?d "memo"] => destruct (dict_has d "memo")
    end;
    cbn [history_file data_dir settings_file heap];
    match goal with
    | |- context [dict_to_list ?n ?d] =>
        destruct (dict_to_list n d) as [values|e];
          [destruct (csv_cells values)|]
    end;
    cbn [fst snd history_file]; eexists;
    rewrite ?append_assoc; reflexivity.
Qed.

Lemma known_keys_memo_inv (r : pydict) (v : pyval) :
  r !! Some "memo" = None ->
  known_keys fieldnames (<[Some "memo" := v]> r) = true ->
  known_keys fieldnames r = true.
Proof.
  rewrite !known_keys_spec. intros Hm Hall k v' Hk.
  apply (Hall k v'). rewrite lookup_insert_ne; [exact Hk|].
  intros <-. rewrite Hm in Hk. discriminate Hk.
Qed.

(** X10: A row with a key outside the six field names: the call fails with a
    [ValueError] and writes no row, but a file that was absent has been
    made and holds the header, so that reading gives no rows. *)
Theorem append_unknown_key (row : nat) (w : world) (r : pydict) :
  heap w !! row = Some r ->
  known_keys fieldnames r = false ->
  let w' := snd (append_history_row row w) in
  fst (append_history_row row w) = Raise ValueError
  /\ history_file w'
     = Some (match history_file w with
             | Some old => old
             | None => csv_line fieldnames
             end)
  /\ (history_file w = None -> read_history_rows w' = Ok []).
Proof.
  intros Hrow Hkeys.
  assert (Hnone : dict_has r "memo" = false -> r !! Some "memo" = None).
  { unfold dict_has. destruct (r !! Some "memo"); [discriminate|reflexivity]. }
  assert (Hkeys' : dict_has r "memo" = false ->
            known_keys fieldnames (<[Some "memo" := PStr ""]> r) = false).
  { intros Hm.
    destruct (known_keys fieldnames (<[Some "memo" := PStr ""]> r)) eqn:E;
      [|reflexivity].
    rewrite (known_keys_memo_inv r _ (Hnone Hm) E) in Hkeys.
    discriminate Hkeys. }
  assert (Hheader :
    read_history_rows
      (World true (settings_file w) (Some (csv_line fieldnames))
         (if dict_has r "memo" then heap w
          else <[row := <[Some "memo" := PStr ""]> r]> (heap w)))
    = Ok []).
  { unfold read_history_rows. cbn [history_file].
    rewrite csv_text_header, csv_rows_csv_text by reflexivity. reflexivity. }
  destruct w as [dd sf hf hp]. cbn [heap settings_file] in *.
  unfold append_history_row, ensure_data_dir, write_history, set_history,
    deref, store.
  cbn [history_file data_dir settings_file heap].
  destruct hf as [old|]; cbn [history_file data_dir settings_file heap];
    rewrite Hrow; destruct (dict_has r "memo") eqn:Hm;
    cbn [history_file data_dir settings_file heap];
    rewrite ?Hrow, ?lookup_insert_eq; unfold dict_to_list;
    rewrite ?Hkeys; try rewrite (Hkeys' eq_refl); cbn [fst snd history_file];
    rewrite ?append_nil_r.
  - split; [reflexivity|]. split; [reflexivity|]. intros Hf. discriminate Hf.
  - split; [reflexivity|]. split; [reflexivity|]. intros Hf. discriminate Hf.
  - split; [reflexivity|]. split; [reflexivity|]. intros _.
    change ("" +:+ csv_line fieldnames) with (csv_line fieldnames).
    exact Hheader.
  - split; [reflexivity|]. split; [reflexivity|]. intros _.
    change ("" +:+ csv_line fieldnames) with (csv_line fieldnames).
    exact Hheader.
Qed.

(** X11: After the ledger was cleared, whatever it held, an append starts it
    afresh: reading gives exactly the appended row, as text. *)
Theorem clear_then_append (row : nat) (w : world) (r : pydict)
  (cells : list string) :
  heap w !! row = Some r ->
  known_keys fieldnames r = true ->
  cells_of r = Ok cells ->
  forallb fits cells = true ->
  let cleared := snd (delete_history_file w) in
  fst (append_history_row row cleared) = Ok tt
  /\ read_history_rows (snd (append_history_row row cleared))
     = Ok [text_row cells].
Proof.
  intros Hrow Hkeys Hr Hcells cleared.
  assert (Hheap : heap cleared !! row = Some r).
  { unfold cleared, delete_history_file.
    destruct (history_file w); exact Hrow. }
  assert (Hfile : history_file cleared = None).
  { unfold cleared, delete_history_file.
    destruct (history_file w) eqn:E; [reflexivity|exact E]. }
  rewrite (append_history_row_ok row cleared r cells Hheap Hkeys Hr).
  cbn [fst snd]. split; [reflexivity|].
  rewrite (read_after_append _ r cells []);
    [|exact Hr| |reflexivity|exact Hcells].
  - unfold row_as_text. rewrite Hr. reflexivity.
  - cbn [history_file]. rewrite Hfile, csv_text_header. reflexivity.
Qed.

(** The writer fails on a cell with a [ValueError] only. *)
Lemma csv_cells_raise (values : list pyval) (e : exn) :
  csv_cells values = Raise e -> e = ValueError.
Proof.
  induction values as [|v values IH]; simpl; [discriminate|].
  destruct (csv_cell v) as [c|e'] eqn:Hv.
  - destruct (csv_cells values) as [cs|e'']; [discriminate|].
    intros Heq. injection Heq as <-. apply IH. reflexivity.
  - intros Heq. injection Heq as <-.
    destruct v as [|s|z| |]; simpl in Hv; try discriminate.
    unfold int_str in Hv. destruct (_ <? _)%N; congruence.
Qed.

(** X18: A row that holds, under one of the field names, an integer of more
    than 4300 digits: the writer cannot convert it, the call fails with a
    [ValueError] and writes nothing of the row. A file that was absent has
    been made and holds the header only; a file that was there is as
    before, and so is what is read from it. *)
Theorem append_huge_integer (row : nat) (w : world) (r : pydict)
  (k : string) (z : Z) :
  heap w !! row = Some r ->
  known_keys fieldnames r = true ->
  In k fieldnames ->
  r !! Some k = Some (PInt z) ->
  (int_max_str_digits < int_digits z)%N ->
  let w' := snd (append_history_row row w) in
  fst (append_history_row row w) = Raise ValueError
  /\ history_file w'
     = Some (match history_file w with
             | Some old => old
             | None => csv_line fieldnames
             end)
  /\ (history_file w = None -> read_history_rows w' = Ok [])
  /\ (is_Some (history_file w) ->
      read_history_rows w' = read_history_rows w).
Proof.
  intros Hrow Hkeys Hk Hz Hbig w'. unfold w'.
  assert (Hcells : cells_of r = Raise ValueError).
  { destruct (cells_of r) as [cells|e] eqn:Hcells.
    - destruct (row_as_text_lookup r cells k Hcells Hk) as (c & Hc & _).
      unfold dict_get in Hc. rewrite Hz in Hc. simpl in Hc.
      unfold int_str in Hc. apply N.ltb_lt in Hbig. rewrite Hbig in Hc.
      discriminate Hc.
    - f_equal. apply (csv_cells_raise _ e Hcells). }
  rewrite (append_history_row_run row w r Hrow Hkeys), Hcells.
  cbn [fst snd history_file].
  split; [reflexivity|]. split; [destruct (history_file w); reflexivity|].
  split.
  - intros Hnone. rewrite Hnone. unfold read_history_rows. cbn [history_file].
    rewrite csv_text_header, csv_rows_csv_text by reflexivity. reflexivity.
  - intros [old Hold]. rewrite Hold. unfold read_history_rows.
    cbn [history_file]. rewrite Hold. reflexivity.
Qed.

End LedgerMore.

Lemma append_unknown_key_witness :
  let H := sample_runtime in
  let r : pydict := {[ Some "price" := PStr "120" ]} in
  let w := World false None None {[ 0%nat := r ]} in
  fst (append_history_row 0%nat w) = Raise ValueError
  /\ read_history_rows (snd (append_history_row 0%nat w)) = Ok [].
Proof.
  intros H r w.
  destruct (@append_unknown_key H 0%nat w r) as (Hraise & _ & Hread);
    [reflexivity|vm_compute; reflexivity|].
  split; [exact Hraise|apply Hread; reflexivity].
Defined.

Lemma clear_then_append_witness :
  let H := sample_runtime in
  let r : pydict := {[ Some "total" := PStr "110.0" ]} in
  let w := World true None (Some "not a ledger") {[ 0%nat := r ]} in
  read_history_rows
    (snd (append_history_row 0%nat (snd (delete_history_file w))))
  = Ok [text_row [""; ""; ""; ""; "110.0"; ""]].
Proof.
  intros H r w.
  destruct (@clear_then_append H 0%nat w r [""; ""; ""; ""; "110.0"; ""])
    as [_ Hread];
    [reflexivity|vm_compute; reflexivity|vm_compute; reflexivity
    |vm_compute; reflexivity|].
  exact Hread.
Defined.

Lemma append_huge_integer_witness :
  let H := sample_runtime in
  let r : pydict :=
    <[Some "count" := PInt (10 ^ 4300)]> {[ Some "total" := PStr "110.0" ]} in
  let old := ["2024-01-30 09:00:00"; "1"; "50.0"; "0.1"; "55.0"; "a, b"] in
  let w := World true None (Some (csv_text [fieldnames; old])) {[ 0%nat := r ]} in
  fst (append_history_row 0%nat w) = Raise ValueError
  /\ history_file (snd (append_history_row 0%nat w)) = history_file w
  /\ read_history_rows (snd (append_history_row 0%nat w))
     = read_history_rows w.
Proof.
  intros H r old w.
  destruct (@append_huge_integer H 0%nat w r "count" (10 ^ 4300))
    as (Hraise & Hfile & _ & Hread).
  - reflexivity.
  - vm_compute. reflexivity.
  - right. left. reflexivity.
  - reflexivity.
  - vm_compute. reflexivity.
  - split; [exact Hraise|]. split; [exact Hfile|].
    apply Hread. eexists. reflexivity.
Defined.

Section AppendAll.
Context `{PyRuntime}.

#[local] Arguments csv_line : simpl never.
#[local] Arguments csv_text : simpl never.
#[local] Arguments cells_of : simpl never.
#[local] Arguments row_as_text : simpl never.

Lemma cells_of_memo (r : pydict) :
  r !! Some "memo" = None ->
  cells_of (<[Some "memo" := PStr ""]> r) = cells_of r
  /\ row_as_text (<[Some "memo" := PStr ""]> r) = row_as_text r.
Proof.
  intros Hm. unfold row_as_text.
  rewrite (cells_of_memo_default r Hm). split; reflexivity.
Qed.

(** The state after an accepted append, seen from another reference. *)
Lemma append_keeps_appendable (row l : nat) (w : world) (r : pydict)
  (cells : list string) :
  heap w !! row = Some r ->
  known_keys fieldnames r = true ->
  cells_of r = Ok cells ->
  appendable w l = true ->
  appendable (snd (append_history_row row w)) l = true
  /\ row_as_text (deref (snd (append_history_row row w)) l)
     = row_as_text (deref w l).
Proof.
  intros Hrow Hkeys Hr Hl.
  rewrite (append_history_row_ok row w r cells Hrow Hkeys Hr). cbn [snd].
  unfold appendable, deref in *. cbn [heap].
  destruct (dict_has r "memo") eqn:Hm; [split; [exact Hl|reflexivity]|].
  assert (Hnone : r !! Some "memo" = None).
  { unfold dict_has in Hm. destruct (r !! Some "memo"); [discriminate|reflexivity]. }
  destruct (cells_of_memo r Hnone) as [Hcells Htext].
  destruct (decide (l = row)) as [->|Hne].
  - rewrite lookup_insert_eq. rewrite Hrow in Hl |- *.
    rewrite (known_keys_memo r _ Hkeys), Hcells, Htext.
    split; [|reflexivity].
    apply andb_prop in Hl as [_ Hfit]. rewrite Hfit. reflexivity.
  - rewrite lookup_insert_ne by congruence. split; [exact Hl|reflexivity].
Qed.

(** X12: Several appends in a row keep the order: on a ledger that is absent or
    was written under the six field names, appending the rows at [rows]
    one after the other succeeds, and reading afterwards gives the rows
    read before followed by the appended rows as text, in the order of
    the appends. *)
Theorem append_all_in_order (rows : list nat) (w : world)
  (old_rows : list (list string)) :
  forallb (appendable w) rows = true ->
  forallb (forallb fits) old_rows = true ->
  history_file w = None
  \/ history_file w = Some (csv_text (fieldnames :: old_rows)) ->
  fst (append_all rows w) = Ok tt
  /\ exists earlier,
       read_history_rows w = Ok earlier
       /\ read_history_rows (snd (append_all rows w))
          = Ok (earlier ++ map (fun l => row_as_text (deref w l)) rows)%list.
Proof.
  revert w old_rows.
  induction rows as [|row rest IH]; intros w old_rows Hrows Hold Hfile.
  - split; [reflexivity|]. cbn [append_all snd map].
    destruct Hfile as [Hnone|Hsome].
    + exists []. split; apply read_history_absent; exact Hnone.
    + eexists. rewrite app_nil_r.
      split; (apply read_written; [exact Hsome|]);
        change (forallb fits fieldnames && forallb (forallb fits) old_rows = true);
        rewrite Hold; reflexivity.
  - cbn [forallb] in Hrows. apply andb_prop in Hrows as [Hrow Hrest].
    assert (Hr : exists r cells, heap w !! row = Some r
                   /\ known_keys fieldnames r = true
                   /\ cells_of r = Ok cells
                   /\ forallb fits cells = true).
    { unfold appendable in Hrow. destruct (heap w !! row) as [r|];
        [|discriminate]. apply andb_prop in Hrow as [Hk Hc].
      destruct (cells_of r) as [cells|e] eqn:Hcs; [|discriminate].
      exists r, cells. auto. }
    destruct Hr as (r & cells & Hheap & Hkeys & Hcs & Hcells).
    set (rows0 := match history_file w with
                 | None => []
                 | Some _ => old_rows
                 end).
    assert (Hrows0 : forallb (forallb fits) rows0 = true)
      by (unfold rows0; destruct (history_file w); [exact Hold|reflexivity]).
    assert (Hfile1 : history_file (snd (append_history_row row w))
                     = Some (csv_text (fieldnames :: rows0)
                             +:+ csv_line cells)).
    { rewrite (append_history_row_ok row w r cells Hheap Hkeys Hcs).
      cbn [snd history_file]. unfold rows0.
      destruct Hfile as [-> | ->]; [rewrite csv_text_header|]; reflexivity. }
    assert (Hearlier : exists earlier,
              read_history_rows w = Ok earlier
              /\ read_history_rows (snd (append_history_row row w))
                 = Ok (earlier ++ [row_as_text r])%list).
    { rewrite (read_after_append _ r cells rows0 Hcs Hfile1 Hrows0 Hcells).
      unfold rows0. destruct Hfile as [Hnone|Hsome].
      - exists []. rewrite Hnone.
        split; [apply read_history_absent; exact Hnone|reflexivity].
      - rewrite Hsome. eexists. split; [|reflexivity].
        apply read_written; [exact Hsome|].
        change (forallb fits fieldnames && forallb (forallb fits) old_rows = true).
        rewrite Hold. reflexivity. }
    destruct Hearlier as (earlier & Hread0 & Hread1).
    assert (Hrest1 : forallb (appendable (snd (append_history_row row w))) rest
                     = true).
    { apply forallb_forall. intros l Hl.
      rewrite forallb_forall in Hrest.
      apply (append_keeps_appendable row l w r cells Hheap Hkeys Hcs
               (Hrest l Hl)). }
    assert (Hfile1' :
      history_file (snd (append_history_row row w)) = None
      \/ history_file (snd (append_history_row row w))
         = Some (csv_text (fieldnames :: (rows0 ++ [cells])%list))).
    { right. rewrite Hfile1, csv_text_snoc. reflexivity. }
    assert (Hold1 : forallb (forallb fits) (rows0 ++ [cells])%list = true).
    { rewrite forallb_app, Hrows0.
      change (forallb (forallb fits) [cells])
        with (forallb fits cells && true).
      rewrite Hcells. reflexivity. }
    destruct (IH _ _ Hrest1 Hold1 Hfile1') as (Hok & earlier1 & Hread1' & Hfinal).
    assert (Hstep : append_all (row :: rest) w
                    = append_all rest (snd (append_history_row row w))).
    { cbn [append_all].
      rewrite (append_history_row_ok row w r cells Hheap Hkeys Hcs).
      reflexivity. }
    rewrite Hstep. split; [exact Hok|].
    exists earlier. split; [exact Hread0|].
    rewrite Hfinal. rewrite Hread1 in Hread1'. injection Hread1' as <-.
    rewrite <- app_assoc. cbn [map app]. do 3 f_equal.
    + unfold deref. rewrite Hheap. reflexivity.
    + apply map_ext_in. intros l Hl.
      rewrite forallb_forall in Hrest.
      apply (append_keeps_appendable row l w r cells Hheap Hkeys Hcs
               (Hrest l Hl)).
Qed.

End AppendAll.

Lemma append_all_in_order_witness :
  let H := sample_runtime in
  let r1 : pydict :=
    <[Some "datetime" := PStr "2024-01-31 23:10:05"]>
      {[ Some "total" := PStr "110.0" ]} in
  let r2 : pydict :=
    <[Some "datetime" := PStr "2024-02-01 08:00:00"]>
      (<[Some "memo" := PStr "a, b"]> {[ Some "total" := PStr "55.0" ]}) in
  let w := World false None None (<[1%nat := r1]> {[ 2%nat := r2 ]}) in
  read_history_rows (snd (append_all [1%nat; 2%nat; 1%nat] w))
  = Ok [row_as_text r1; row_as_text r2; row_as_text r1].
Proof.
  intros H r1 r2 w.
  destruct (@append_all_in_order H [1%nat; 2%nat; 1%nat] w [])
    as (_ & earlier & Hbefore & Hafter);
    [vm_compute; reflexivity|reflexivity|left; reflexivity|].
  injection Hbefore as <-. exact Hafter.
Defined.

(** ** What [csv.DictReader] hands to the program *)

Lemma foldl_insert_text (l : list (string * string)) (d : pydict)
  (names : list string) :
  Forall (fun kv => fst kv ∈ names) l ->
  named_cells d -> keys_within names d ->
  named_cells (foldl (fun d kv => <[Some (fst kv) := PStr (snd kv)]> d) d l)
  /\ keys_within names
       (foldl (fun d kv => <[Some (fst kv) := PStr (snd kv)]> d) d l).
Proof.
  intros Hl. revert d. induction Hl as [|[k s] l Hk _ IH]; intros d Hc Hw;
    simpl; [split; assumption|].
  apply IH.
  - intros k' v Hlook. destruct (decide (k' = k)) as [->|Hne].
    + rewrite lookup_insert_eq in Hlook. injection Hlook as <-. reflexivity.
    + rewrite lookup_insert_ne in Hlook by congruence. exact (Hc k' v Hlook).
  - intros k' Hsome. destruct (decide (k' = k)) as [->|Hne]; [exact Hk|].
    rewrite lookup_insert_ne in Hsome by congruence. exact (Hw k' Hsome).
Qed.

Lemma foldl_insert_none (l : list string) (d : pydict) (names : list string) :
  Forall (fun k => k ∈ names) l ->
  named_cells d -> keys_within names d ->
  named_cells (foldl (fun d k => <[Some k := PNone]> d) d l)
  /\ keys_within names (foldl (fun d k => <[Some k := PNone]> d) d l).
Proof.
  intros Hl. revert d. induction Hl as [|k l Hk _ IH]; intros d Hc Hw;
    simpl; [split; assumption|].
  apply IH.
  - intros k' v Hlook. destruct (decide (k' = k)) as [->|Hne].
    + rewrite lookup_insert_eq in Hlook. injection Hlook as <-. reflexivity.
    + rewrite lookup_insert_ne in Hlook by congruence. exact (Hc k' v Hlook).
  - intros k' Hsome. destruct (decide (k' = k)) as [->|Hne]; [exact Hk|].
    rewrite lookup_insert_ne in Hsome by congruence. exact (Hw k' Hsome).
Qed.

Lemma dict_of_row_cells (names row : list string) :
  named_cells (dict_of_row names row)
  /\ keys_within names (dict_of_row names row).
Proof.
  assert (Hzip : named_cells (zip_dict names row)
                 /\ keys_within names (zip_dict names row)).
  { unfold zip_dict. apply foldl_insert_text.
    - apply Forall_forall. intros [k s] Hin. simpl.
      apply elem_of_zip_l in Hin. exact Hin.
    - intros k v Hk. rewrite lookup_empty in Hk. discriminate Hk.
    - intros k [v Hk]. rewrite lookup_empty in Hk. discriminate Hk. }
  destruct Hzip as [Hc Hw]. unfold dict_of_row.
  destruct (length names <? length row)%nat.
  - split.
    + intros k v Hk. rewrite lookup_insert_ne in Hk by discriminate.
      exact (Hc k v Hk).
    + intros k Hk. rewrite lookup_insert_ne in Hk by discriminate.
      exact (Hw k Hk).
  - apply foldl_insert_none; [|exact Hc|exact Hw].
    apply Forall_forall. intros k Hin.
    apply (subseteq_drop (length row) names). exact Hin.
Qed.

Lemma memo_repair_cells (d : pydict) :
  named_cells d ->
  named_cells (memo_repair d) /\ dict_has (memo_repair d) "memo" = true.
Proof.
  intros Hc. unfold memo_repair.
  destruct (dict_has d "memo") eqn:Hm; [split; assumption|]. split.
  - intros k v Hk. destruct (decide (k = "memo")) as [->|Hne].
    + rewrite lookup_insert_eq in Hk. injection Hk as <-. reflexivity.
    + rewrite lookup_insert_ne in Hk by congruence. exact (Hc k v Hk).
  - unfold dict_has. rewrite lookup_insert_eq. reflexivity.
Qed.

Lemma read_history_rows_inv (w : world) (rows : list pydict) :
  read_history_rows w = Ok rows ->
  Forall (fun r => named_cells r /\ dict_has r "memo" = true) rows.
Proof.
  unfold read_history_rows. destruct (history_file w) as [text|].
  - destruct (csv_rows text) as [table|e]; [|discriminate].
    intros Heq. injection Heq as <-.
    apply Forall_forall. intros r Hr.
    apply list_elem_of_fmap in Hr as (d & -> & Hd).
    apply memo_repair_cells.
    unfold dict_reader in Hd. destruct table as [|names data].
    + inversion Hd.
    + apply list_elem_of_fmap in Hd as (row & -> & _).
      apply dict_of_row_cells.
  - intros Heq. injection Heq as <-. constructor.
Qed.

(** X13: Whatever a ledger file holds, if it can be read then every row read
    has a memo cell and only text or [None] under its field names; and
    the totals by memo of the rows read are computed without failure,
    with at most ten bars. *)
Theorem read_rows_feed_the_memo_chart (w : world) (rows : list pydict) :
  read_history_rows w = Ok rows ->
  Forall (fun r =>
            dict_has r "memo" = true
            /\ forall k v, r !! Some k = Some v -> is_cell v = true) rows
  /\ exists items, memo_totals rows = Ok items /\ (length items <= 10)%nat.
Proof.
  intros Hread. apply read_history_rows_inv in Hread. split.
  - eapply Forall_impl; [exact Hread|]. intros r [Hc Hm]. split; assumption.
  - assert (Hcells :
      Forall (fun r => is_cell (dict_get r "memo" (PStr "")) = true) rows).
    { eapply Forall_impl; [exact Hread|]. intros r [Hc _]. unfold dict_get.
      destruct (r !! Some "memo") as [v|] eqn:E; [exact (Hc _ _ E)|reflexivity]. }
    destruct (bucket_loop_get rows [] Hcells) as (buckets & Hloop & _).
    exists (take 10 (sorted_desc buckets)). unfold memo_totals. rewrite Hloop.
    split; [reflexivity|]. rewrite length_take. lia.
Qed.

(** X14: A ledger from before the memo column: when the header has no [memo]
    among its names, every row read has the memo [""]. *)
Theorem legacy_rows_repaired (w : world) (text : string)
  (names : list string) (data : list (list string)) (rows : list pydict) :
  history_file w = Some text ->
  csv_rows text = Ok (names :: data) ->
  "memo" ∉ names ->
  read_history_rows w = Ok rows ->
  Forall (fun r => r !! Some "memo" = Some (PStr "")) rows.
Proof.
  intros Hfile Hcsv Hmemo. unfold read_history_rows.
  rewrite Hfile, Hcsv. intros Heq. injection Heq as <-.
  apply Forall_forall. intros r Hr.
  apply list_elem_of_fmap in Hr as (d & -> & Hd).
  apply list_elem_of_fmap in Hd as (row & -> & _).
  destruct (dict_of_row_cells names row) as [_ Hw].
  unfold memo_repair, dict_has.
  destruct (dict_of_row names row !! Some "memo") as [v|] eqn:E.
  - contradiction Hmemo. apply Hw. rewrite E. eauto.
  - apply lookup_insert_eq.
Qed.

Lemma read_rows_feed_the_memo_chart_witness :
  let text :=
    "memo,total" +:+ crlf +:+ "market,10" +:+ crlf +:+ "only a memo" +:+ crlf in
  let w := World true None (Some text) ∅ in
  let rows :=
    map memo_repair
      (dict_reader [["memo"; "total"]; ["market"; "10"]; ["only a memo"]]) in
  read_history_rows w = Ok rows
  /\ exists items, memo_totals rows = Ok items /\ (length items <= 10)%nat.
Proof.
  intros text w rows.
  assert (Hread : read_history_rows w = Ok rows) by (vm_compute; reflexivity).
  split; [exact Hread|].
  exact (proj2 (read_rows_feed_the_memo_chart w rows Hread)).
Defined.

Lemma legacy_rows_repaired_witness :
  let names := ["datetime"; "count"; "subtotal"; "tax_rate"; "total"] in
  let data := [["2023-12-24 18:00:00"; "2"; "300.0"; "0.1"; "330.0"]] in
  let text :=
    "datetime,count,subtotal,tax_rate,total" +:+ crlf
    +:+ "2023-12-24 18:00:00,2,300.0,0.1,330.0" +:+ crlf in
  let w := World true None (Some text) ∅ in
  let rows := map memo_repair (dict_reader (names :: data)) in
  read_history_rows w = Ok rows
  /\ Forall (fun r => r !! Some "memo" = Some (PStr "")) rows.
Proof.
  intros names data text w rows.
  assert (Hread : read_history_rows w = Ok rows) by (vm_compute; reflexivity).
  split; [exact Hread|].
  apply (legacy_rows_repaired w text names data rows);
    [reflexivity|vm_compute; reflexivity| |exact Hread].
  intros Hin. unfold names in Hin.
  repeat (apply elem_of_cons in Hin as [Hin|Hin]; [discriminate Hin|]).
  inversion Hin.
Defined.

(** ** The trend on rows without a date *)

Lemma trend_loop_cells (recent : list pydict) (acc : trend) :
  Forall named_cells recent ->
  (Exists (fun r => r !! Some "datetime" = Some PNone) recent ->
   trend_loop recent acc = Raise TypeError)
  /\ (Forall (fun r => r !! Some "datetime" <> Some PNone) recent ->
      exists t, trend_loop recent acc = Ok t).
Proof.
  intros Hcells. revert acc.
  induction Hcells as [|r recent Hr _ IH]; intros acc.
  - split; [intros Hex; inversion Hex|]. intros _. exists acc. reflexivity.
  - assert (Hstep : forall s,
              dict_get r "datetime" (PStr "") = PStr s ->
              trend_loop (r :: recent) acc
              = trend_loop recent
                  {| x_labels := x_labels acc ++ [PStr (Spec.label s)];
                     totals := totals acc ++ [total_of r];
                     memos := memos acc ++ [dict_get r "memo" (PStr "")] |}).
    { intros s Hs. simpl. rewrite Hs, label_of_text. reflexivity. }
    unfold dict_get in Hstep.
    destruct (r !! Some "datetime") as [v|] eqn:E.
    + specialize (Hr _ _ E). destruct v as [|s| | |]; try discriminate Hr.
      * split.
        -- intros _. simpl. unfold dict_get. rewrite E. reflexivity.
        -- intros Hall. apply Forall_cons in Hall as [Hne _]. congruence.
      * rewrite (Hstep s eq_refl). split.
        -- intros Hex. apply Exists_cons in Hex as [Hhead|Htail];
             [congruence|]. apply IH. exact Htail.
        -- intros Hall. apply Forall_cons in Hall as [_ Hall].
           apply IH. exact Hall.
    + rewrite (Hstep "" eq_refl). split.
      * intros Hex. apply Exists_cons in Hex as [Hhead|Htail];
          [congruence|]. apply IH. exact Htail.
      * intros Hall. apply Forall_cons in Hall as [_ Hall].
        apply IH. exact Hall.
Qed.

(** X15: On the rows read from a ledger, for any slider value: the trend stops
    with a [TypeError] as soon as a row of the window has [None] for its
    date (a row shorter than the header gives that), and otherwise it is
    computed for exactly the window. *)
Theorem trend_fails_without_date (w : world) (rows : list pydict) (n : Z) :
  read_history_rows w = Ok rows ->
  let window := slice_from (- n) rows in
  (Exists (fun r => r !! Some "datetime" = Some PNone) window ->
   recent_trend n rows = Raise TypeError)
  /\ (Forall (fun r => r !! Some "datetime" <> Some PNone) window ->
      exists t, recent_trend n rows = Ok (window, t)).
Proof.
  intros Hread window. apply read_history_rows_inv in Hread.
  assert (Hcells : Forall named_cells window).
  { unfold window, slice_from. apply Forall_drop.
    eapply Forall_impl; [exact Hread|]. intros r [Hc _]. exact Hc. }
  destruct (trend_loop_cells window (Trend [] [] []) Hcells) as [Hbad Hgood].
  unfold recent_trend. fold window. split.
  - intros Hex. rewrite (Hbad Hex). reflexivity.
  - intros Hall. destruct (Hgood Hall) as [t Ht]. exists t. rewrite Ht.
    reflexivity.
Qed.

Lemma trend_fails_without_date_witness :
  let text := "count,datetime" +:+ crlf +:+ "3" +:+ crlf in
  let w := World true None (Some text) ∅ in
  let rows := map memo_repair (dict_reader [["count"; "datetime"]; ["3"]]) in
  read_history_rows w = Ok rows
  /\ recent_trend 5 rows = Raise TypeError.
Proof.
  intros text w rows.
  assert (Hread : read_history_rows w = Ok rows) by (vm_compute; reflexivity).
  split; [exact Hread|].
  apply (proj1 (trend_fails_without_date w rows 5 Hread)).
  apply Exists_cons_hd. vm_compute. reflexivity.
Defined.

(** ** Appending to a ledger from before the memo column *)

Section LegacyAppend.
Context `{PyRuntime}.

#[local] Arguments csv_line : simpl never.
#[local] Arguments csv_text : simpl never.
#[local] Arguments cells_of : simpl never.

(** X16: On a ledger whose header has the five old field names, an appended
    row still has six cells and no header is written. Read back, the new
    row has its first five cells under their names, its memo among the
    surplus cells under the key [None], and [""] for its memo: the memo
    that was entered does not show. *)
Theorem append_to_legacy_ledger (row : nat) (w : world) (r : pydict)
  (cells : list string) (old_rows : list (list string)) :
  heap w !! row = Some r ->
  known_keys fieldnames r = true ->
  cells_of r = Ok cells ->
  forallb fits cells = true ->
  forallb (forallb fits) old_rows = true ->
  history_file w = Some (csv_text (legacy_fieldnames :: old_rows)) ->
  exists earlier last,
    read_history_rows w = Ok earlier
    /\ fst (append_history_row row w) = Ok tt
    /\ read_history_rows (snd (append_history_row row w))
       = Ok (earlier ++ [last])%list
    /\ last !! Some "memo" = Some (PStr "")
    /\ (exists memo,
          csv_cell (dict_get r "memo" (PStr "")) = Ok memo
          /\ last !! None = Some (PList [memo]))
    /\ forall k, In k legacy_fieldnames ->
         exists c,
           csv_cell (dict_get r k (PStr "")) = Ok c
           /\ last !! Some k = Some (PStr c).
Proof.
  intros Hrow Hkeys Hr Hcells Hold Hfile.
  assert (Hfit : forall rows, forallb (forallb fits) rows = true ->
            forallb (forallb fits) (legacy_fieldnames :: rows) = true).
  { intros rows Hrows.
    change (forallb fits legacy_fieldnames && forallb (forallb fits) rows = true).
    rewrite Hrows. reflexivity. }
  exists (map memo_repair
            (map (dict_of_row legacy_fieldnames)
               (filter (fun row => is_blank row = false) old_rows))),
         (memo_repair (dict_of_row legacy_fieldnames cells)).
  split; [apply read_written; [exact Hfile|apply Hfit; exact Hold]|].
  split; [rewrite (append_history_row_ok row w r cells Hrow Hkeys Hr);
          reflexivity|].
  destruct (cells_of_six r cells Hr)
    as (c1 & c2 & c3 & c4 & c5 & c6 & Heq & H1 & H2 & H3 & H4 & H5 & H6).
  split.
  - rewrite (read_written _ legacy_fieldnames (old_rows ++ [cells])).
    + rewrite filter_app, !map_app. subst cells. reflexivity.
    + rewrite (append_history_row_ok row w r cells Hrow Hkeys Hr).
      cbn [snd history_file]. rewrite Hfile, csv_text_snoc. reflexivity.
    + apply Hfit. rewrite forallb_app, Hold.
      change (forallb (forallb fits) [cells])
        with (forallb fits cells && true).
      rewrite Hcells. reflexivity.
  - subst cells. split; [reflexivity|].
    split; [exists c6; split; [exact H6|reflexivity]|].
    intros k Hin. simpl in Hin.
    repeat (destruct Hin as [<-|Hin];
            [eexists; split; [eassumption|reflexivity]|]).
    contradiction.
Qed.

End LegacyAppend.

Lemma append_to_legacy_ledger_witness :
  let H := sample_runtime in
  let r : pydict :=
    <[Some "datetime" := PStr "2024-01-31 23:10:05"]>
      (<[Some "total" := PStr "110.0"]> {[ Some "memo" := PStr "market" ]}) in
  let old := ["2023-12-24 18:00:00"; "2"; "300.0"; "0.1"; "330.0"] in
  let w :=
    World true None (Some (csv_text [legacy_fieldnames; old]))
      {[ 0%nat := r ]} in
  exists earlier last,
    read_history_rows (snd (append_history_row 0%nat w))
    = Ok (earlier ++ [last])%list
    /\ last !! Some "memo" = Some (PStr "")
    /\ last !! None = Some (PList ["market"]).
Proof.
  intros H r old w.
  destruct (@append_to_legacy_ledger H 0%nat w r
              ["2024-01-31 23:10:05"; ""; ""; ""; "110.0"; "market"] [old])
    as (earlier & last & _ & _ & Hread & Hmemo & (memo & Hm & Hrest) & _);
    [reflexivity|vm_compute; reflexivity|vm_compute; reflexivity
    |vm_compute; reflexivity|vm_compute; reflexivity|reflexivity|].
  exists earlier, last. split; [exact Hread|]. split; [exact Hmemo|].
  rewrite Hrest. vm_compute in Hm. injection Hm as <-. reflexivity.
Defined.

(** ** A cell longer than the reader's field limit *)

Lemma add_char_full (c : ascii) (st : pstate) (g : string) (acc : list string) :
  (field_limit <= N.of_nat (String.length g))%N ->
  parse_add_char c (Reader st g acc) = Raise CsvError.
Proof.
  intros Hlen. unfold parse_add_char. simpl.
  destruct (N.leb_spec field_limit (N.of_nat (String.length g))); [|lia].
  reflexivity.
Qed.

Lemma step_in_field_full (c : ascii) (g : string) (acc : list string) :
  special c = false ->
  (field_limit <= N.of_nat (String.length g))%N ->
  process_char (Ch c) (Reader IN_FIELD g acc) = Raise CsvError.
Proof.
  intros Hc Hlen. apply special_false in Hc as (Hcomma & _ & Hcr & Hlf).
  unfold process_char, is_newline. simpl. rewrite Hlf, Hcr, Hcomma. simpl.
  apply add_char_full. exact Hlen.
Qed.

Lemma step_quoted_full (c : ascii) (g : string) (acc : list string) :
  Ascii.eqb c dquote = false ->
  (field_limit <= N.of_nat (String.length g))%N ->
  process_char (Ch c) (Reader IN_QUOTED_FIELD g acc) = Raise CsvError.
Proof.
  intros Hdq Hlen. unfold process_char. simpl. rewrite Hdq.
  apply add_char_full. exact Hlen.
Qed.

Lemma step_quote_quote_full (g : string) (acc : list string) :
  (field_limit <= N.of_nat (String.length g))%N ->
  process_char (Ch dquote) (Reader QUOTE_IN_QUOTED_FIELD g acc)
  = Raise CsvError.
Proof.
  intros Hlen. unfold process_char. simpl.
  rewrite add_char_full by exact Hlen. reflexivity.
Qed.

Lemma scan_raw_overflow (f g : string) (acc : list string) (b : bool)
  (tail : string) :
  has_special f = false ->
  (N.of_nat (String.length g) <= field_limit)%N ->
  (field_limit < N.of_nat (String.length g + String.length f))%N ->
  scan (f +:+ tail) b (Reader IN_FIELD g acc) = Raise CsvError.
Proof.
  revert g b. induction f as [|c f IH]; intros g b Hsp Hg Hover.
  - simpl in Hover. lia.
  - simpl in Hsp. apply orb_false_elim in Hsp as [Hc Hf].
    simpl in Hover. simpl. rewrite scan_cons.
    destruct (N.ltb_spec (N.of_nat (String.length g)) field_limit) as [Hlt|Hge].
    + rewrite step_in_field by assumption.
      apply special_false in Hc as (_ & _ & Hcr & Hlf).
      rewrite ends_line_plain by assumption.
      apply IH; [exact Hf| |]; rewrite append_length; simpl; lia.
    + rewrite step_in_field_full by assumption. reflexivity.
Qed.

Lemma scan_quoted_overflow (f g : string) (acc : list string) (b : bool)
  (tail : string) :
  (N.of_nat (String.length g) <= field_limit)%N ->
  (field_limit < N.of_nat (String.length g + String.length f))%N ->
  scan (double_quotes f +:+ String dquote tail) b
    (Reader IN_QUOTED_FIELD g acc)
  = Raise CsvError.
Proof.
  revert g b. induction f as [|c f IH]; intros g b Hg Hover.
  - simpl in Hover. lia.
  - simpl in Hover. simpl.
    destruct (Ascii.eqb c dquote) eqn:Hdq.
    + apply Ascii.eqb_eq in Hdq. subst c. simpl. rewrite scan_cons.
      change (process_char (Ch dquote) (Reader IN_QUOTED_FIELD g acc))
        with (Ok (Reader QUOTE_IN_QUOTED_FIELD g acc)).
      change (ends_line dquote (String dquote (double_quotes f +:+ String dquote tail)))
        with false.
      cbv iota. rewrite scan_cons.
      destruct (N.ltb_spec (N.of_nat (String.length g)) field_limit) as [Hlt|Hge].
      * rewrite step_quote_quote by exact Hlt.
        change (ends_line dquote (double_quotes f +:+ String dquote tail))
          with false.
        cbv iota. apply IH; rewrite append_length; simpl; lia.
      * rewrite step_quote_quote_full by exact Hge. reflexivity.
    + simpl. rewrite scan_cons.
      destruct (N.ltb_spec (N.of_nat (String.length g)) field_limit) as [Hlt|Hge].
      * rewrite step_quoted by assumption.
        assert (Hnext :
          forall b', scan (double_quotes f +:+ String dquote tail) b'
                       (Reader IN_QUOTED_FIELD (g +:+ String c "") acc)
                     = Raise CsvError).
        { intros b'. apply IH; rewrite append_length; simpl; lia. }
        destruct (ends_line c _); [|apply Hnext].
        change (process_char EOL (Reader IN_QUOTED_FIELD (g +:+ String c "") acc))
          with (Ok (Reader IN_QUOTED_FIELD (g +:+ String c "") acc)).
        cbv iota.
        change (at_start (Reader IN_QUOTED_FIELD (g +:+ String c "") acc))
          with false.
        cbv iota. apply Hnext.
      * rewrite step_quoted_full by assumption. reflexivity.
Qed.

Lemma scan_field_overflow (f : string) (st0 : pstate) (acc : list string)
  (b : bool) (tail : string) :
  st0 = START_RECORD \/ st0 = START_FIELD ->
  fits f = false ->
  scan (csv_field f +:+ tail) b (Reader st0 "" acc) = Raise CsvError.
Proof.
  intros Hst Hfit. unfold fits in Hfit. apply N.leb_gt in Hfit.
  assert (Hone : (1 <= field_limit)%N) by (vm_compute; discriminate).
  unfold csv_field. destruct (has_special f) eqn:Hsp.
  - simpl. rewrite scan_cons, step_start_quote by exact Hst.
    change (ends_line dquote ((double_quotes f +:+ String dquote "") +:+ tail))
      with false.
    cbv iota. rewrite append_assoc. simpl.
    apply scan_quoted_overflow; simpl; lia.
  - destruct f as [|c f]; [simpl in Hfit; lia|].
    simpl in Hsp. apply orb_false_elim in Hsp as [Hc Hf].
    simpl in Hfit. simpl. rewrite scan_cons, step_start by assumption.
    apply special_false in Hc as (_ & _ & Hcr & Hlf).
    rewrite ends_line_plain by assumption.
    apply scan_raw_overflow; [exact Hf| |]; simpl; lia.
Qed.

Lemma scan_join_overflow (fs : list string) (st0 : pstate) (acc : list string)
  (b : bool) (rest : string) :
  st0 = START_RECORD \/ st0 = START_FIELD ->
  forallb fits fs = false ->
  scan (join_fields fs +:+ crlf +:+ rest) b (Reader st0 "" acc)
  = Raise CsvError.
Proof.
  revert st0 acc b. induction fs as [|f fs IH]; intros st0 acc b Hst Hfit;
    [discriminate Hfit|].
  simpl in Hfit. destruct (fits f) eqn:Hf.
  - destruct fs as [|g fs]; [discriminate Hfit|].
    change (join_fields (f :: g :: fs))
      with (csv_field f +:+ String comma (join_fields (g :: fs))).
    rewrite append_assoc.
    destruct (scan_field f st0 acc b
                (String comma (join_fields (g :: fs)) +:+ crlf +:+ rest) Hst Hf)
      as (st & b' & Hcase & ->).
    change (String comma (join_fields (g :: fs)) +:+ crlf +:+ rest)
      with (String comma (join_fields (g :: fs) +:+ crlf +:+ rest)).
    rewrite scan_comma
      by (destruct Hcase as [[_ ->]|[->| ->]]; destruct Hst; subst; auto).
    apply IH; [auto|exact Hfit].
  - destruct fs as [|g fs].
    + change (join_fields [f]) with (csv_field f).
      apply scan_field_overflow; assumption.
    + change (join_fields (f :: g :: fs))
        with (csv_field f +:+ String comma (join_fields (g :: fs))).
      rewrite append_assoc. apply scan_field_overflow; assumption.
Qed.

Lemma scan_csv_line_overflow (fs : list string) (rest : string) :
  forallb fits fs = false ->
  scan (csv_line fs +:+ rest) false reader_init = Raise CsvError.
Proof.
  intros Hfit.
  assert (Hline : csv_line fs = join_fields fs +:+ crlf).
  { destruct fs as [|f [|g fs]]; [discriminate Hfit| |destruct f; reflexivity].
    destruct f; [discriminate Hfit|reflexivity]. }
  rewrite Hline, append_assoc.
  apply (scan_join_overflow fs START_RECORD []); [auto|exact Hfit].
Qed.

Section Oversized.
Context `{PyRuntime}.

#[local] Arguments csv_line : simpl never.
#[local] Arguments csv_text : simpl never.
#[local] Arguments cells_of : simpl never.

(** X17: The writer has no limit on the length of a cell, the reader has one:
    a row with a cell of more than 131072 characters is appended without
    complaint, and the reading of the ledger that follows fails with a
    [csv.Error]. *)
Theorem oversized_cell_breaks_reading (row : nat) (w : world) (r : pydict)
  (cells : list string) (old_rows : list (list string)) :
  heap w !! row = Some r ->
  known_keys fieldnames r = true ->
  cells_of r = Ok cells ->
  forallb fits cells = false ->
  forallb (forallb fits) old_rows = true ->
  history_file w = None
  \/ history_file w = Some (csv_text (fieldnames :: old_rows)) ->
  fst (append_history_row row w) = Ok tt
  /\ read_history_rows (snd (append_history_row row w)) = Raise CsvError.
Proof.
  intros Hrow Hkeys Hr Hcells Hold Hfile.
  rewrite (append_history_row_ok row w r cells Hrow Hkeys Hr). cbn [fst snd].
  split; [reflexivity|].
  assert (Hread : forall rows h,
    forallb (forallb fits) rows = true ->
    read_history_rows
      (World true (settings_file w)
         (Some (csv_text (fieldnames :: rows) +:+ csv_line cells)) h)
    = Raise CsvError).
  { intros rows h Hrows. unfold read_history_rows. cbn [history_file].
    rewrite csv_rows_scan.
    rewrite <- (append_nil_r (csv_line cells)).
    rewrite scan_csv_text, scan_csv_line_overflow by
      (try exact Hcells;
       change (forallb fits fieldnames && forallb (forallb fits) rows = true);
       rewrite Hrows; reflexivity).
    reflexivity. }
  destruct Hfile as [-> | ->].
  - rewrite csv_text_header. apply Hread. reflexivity.
  - apply Hread. exact Hold.
Qed.

End Oversized.

Lemma oversized_cell_breaks_reading_witness :
  let H := sample_runtime in
  let long := repeat_char (N.to_nat 131073) "x" in
  let r : pydict :=
    <[Some "total" := PStr "110.0"]> {[ Some "memo" := PStr long ]} in
  let w := World false None None {[ 0%nat := r ]} in
  fst (append_history_row 0%nat w) = Ok tt
  /\ read_history_rows (snd (append_history_row 0%nat w)) = Raise CsvError.
Proof.
  intros H long r w.
  apply (@oversized_cell_breaks_reading H 0%nat w r
           [""; ""; ""; ""; "110.0"; long] []);
    [reflexivity|vm_compute; reflexivity|reflexivity
    |vm_compute; reflexivity|reflexivity|left; reflexivity].
Defined.
